(** * Authentication core of backend/internal/data/models.go

    Shallow embedding of the credential store (User methods), the token
    issuer and token store (Token methods) and the request authenticator
    (AuthenticationToken) of the data package.  The relational database
    reached through [db *sql.DB] is modelled as a small table store; every
    statement may additionally be failed by the driver (an injected fault)
    or by the expiry of the per-call [context.WithTimeout] deadline.
    Time is a [Z] count of nanoseconds, as [time.Time] / [time.Duration]. *)

From Stdlib Require Import String Ascii List ZArith Lia Bool.
From Stdlib Require Import Strings.Byte.
Import ListNotations.
Open Scope string_scope.
Open Scope list_scope.

(** ** Go errors *)
Module Go.

(** The [error] values the package produces or inspects.  [ErrWrap]
    is [fmt.Errorf] with a [%w] verb: a message prefix and the wrapped
    error. *)
Inductive error :=
| ErrNoRows                        (* sql.ErrNoRows *)
| ErrMismatchedHashAndPassword     (* bcrypt.ErrMismatchedHashAndPassword *)
| ErrMsg (msg : string)            (* errors.New / fmt.Errorf without %w *)
| ErrWrap (prefix : string) (inner : error).

Definition error_eq_dec (a b : error) : {a = b} + {a <> b}.
Proof. decide equality; apply string_dec. Defined.

(** [errors.Is]: the error itself or any error it wraps. *)
Fixpoint Is (e target : error) : bool :=
  if error_eq_dec e target then true
  else match e with ErrWrap _ inner => Is inner target | _ => false end.

(** A Go [(value, error)] pair where exactly one side is meaningful. *)
Inductive result (A : Type) := Ok (a : A) | Err (e : error).
Arguments Ok {A} a.
Arguments Err {A} e.

(** [strconv.Itoa] for the small naturals printed with [%d]. *)
Definition digit (n : nat) : string :=
  String (ascii_of_nat (48 + n)) EmptyString.
Fixpoint itoa_fuel (fuel n : nat) : string :=
  match fuel with
  | O => EmptyString
  | S f => if Nat.ltb n 10 then digit n
           else itoa_fuel f (n / 10) ++ digit (n mod 10)
  end.
Definition itoa (n : nat) : string := itoa_fuel (S n) n.

(** [strings.Split(s, sep)] for a one-byte separator. *)
Fixpoint Split (s : string) (sep : ascii) : list string :=
  match s with
  | EmptyString => [EmptyString]
  | String c rest =>
      let parts := Split rest sep in
      if Ascii.eqb c sep then EmptyString :: parts
      else match parts with
           | p :: ps => String c p :: ps
           | [] => [String c EmptyString]
           end
  end.

End Go.
Import Go.

(** ** Relational store *)
Module Sql.

Inductive value :=
| VNull
| VInt (z : Z)                 (* int, time.Time *)
| VText (s : string)           (* text, varchar *)
| VBytes (b : list byte).      (* bytea *)

Fixpoint bytes_eqb (a b : list byte) : bool :=
  match a, b with
  | [], [] => true
  | x :: a', y :: b' => Byte.eqb x y && bytes_eqb a' b'
  | _, _ => false
  end.

(** SQL [=] in a WHERE clause: NULL is never equal to anything. *)
Definition sql_eq (a b : value) : bool :=
  match a, b with
  | VInt x, VInt y => Z.eqb x y
  | VText x, VText y => String.eqb x y
  | VBytes x, VBytes y => bytes_eqb x y
  | _, _ => false
  end.

Definition row := list (string * value).

Fixpoint row_get (r : row) (c : string) : value :=
  match r with
  | [] => VNull
  | (c', v) :: r' => if String.eqb c c' then v else row_get r' c
  end.

(** A table: its declared columns, its rows and the next value of its
    [serial] primary key [id]. *)
Record table := mkTable {
  t_columns : list string;
  t_rows : list row;
  t_next_id : Z
}.

Record store := mkStore { users : table; tokens : table }.

Definition get_table (s : store) (name : string) : option table :=
  if String.eqb name "users" then Some (users s)
  else if String.eqb name "tokens" then Some (tokens s)
  else None.

Definition set_table (s : store) (name : string) (t : table) : store :=
  if String.eqb name "users" then mkStore t (tokens s)
  else if String.eqb name "tokens" then mkStore (users s) t
  else s.

(** The statements the package issues, with their column names exactly
    as written in its query strings. *)
Inductive stmt :=
| SInsert (tbl : string) (cols : list string) (args : list value)
          (returning : list string)
| SSelect (tbl : string) (cols : list string)
          (where_ : option (string * value))
| SUpdate (tbl : string) (sets : list (string * value)) (where_ : string * value)
| SDelete (tbl : string) (where_ : string * value).

Inductive sql_res :=
| RRows (rows : list (list value))
| RAffected (n : Z).

Definition has_column (t : table) (c : string) : bool :=
  existsb (String.eqb c) (t_columns t).

(** Postgres refuses a statement naming an undeclared column. *)
Fixpoint check_columns (t : table) (cs : list string) : result unit :=
  match cs with
  | [] => Ok tt
  | c :: cs' =>
      if has_column t c then check_columns t cs'
      else Err (ErrMsg ("pq: column " ++ c ++ " does not exist"))
  end.

Fixpoint assoc (cols : list string) (args : list value) (c : string) : value :=
  match cols, args with
  | c' :: cols', a :: args' => if String.eqb c c' then a else assoc cols' args' c
  | _, _ => VNull
  end.

Definition new_row (t : table) (cols : list string) (args : list value) : row :=
  map (fun c => (c, if String.eqb c "id" then VInt (t_next_id t)
                    else assoc cols args c)) (t_columns t).

Definition matches (w : string * value) (r : row) : bool :=
  sql_eq (row_get r (fst w)) (snd w).

Definition project (cols : list string) (r : row) : list value :=
  map (row_get r) cols.

Fixpoint set_cols (sets : list (string * value)) (r : row) : row :=
  match r with
  | [] => []
  | (c, v) :: r' =>
      (c, match find (fun s => String.eqb (fst s) c) sets with
          | Some (_, v') => v' | None => v end) :: set_cols sets r'
  end.

Definition where_cols (w : option (string * value)) : list string :=
  match w with Some (c, _) => [c] | None => [] end.

Definition run_on (t : table) (st : stmt) : result (sql_res * table) :=
  match st with
  | SInsert _ cols args returning =>
      match check_columns t (cols ++ returning) with
      | Err e => Err e
      | Ok _ =>
          if Nat.eqb (length cols) (length args) then
            let r := new_row t cols args in
            Ok (match returning with
                | [] => RAffected 1
                | _ => RRows [project returning r]
                end,
                mkTable (t_columns t) (t_rows t ++ [r]) (t_next_id t + 1))
          else Err (ErrMsg "pq: wrong number of arguments")
      end
  | SSelect _ cols w =>
      match check_columns t (cols ++ where_cols w) with
      | Err e => Err e
      | Ok _ =>
          let sel := match w with
                     | Some w' => filter (matches w') (t_rows t)
                     | None => t_rows t
                     end in
          Ok (RRows (map (project cols) sel), t)
      end
  | SUpdate _ sets w =>
      match check_columns t (map fst sets ++ [fst w]) with
      | Err e => Err e
      | Ok _ =>
          let n := Z.of_nat (length (filter (matches w) (t_rows t))) in
          Ok (RAffected n,
              mkTable (t_columns t)
                (map (fun r => if matches w r then set_cols sets r else r) (t_rows t))
                (t_next_id t))
      end
  | SDelete _ w =>
      match check_columns t [fst w] with
      | Err e => Err e
      | Ok _ =>
          let n := Z.of_nat (length (filter (matches w) (t_rows t))) in
          Ok (RAffected n,
              mkTable (t_columns t)
                (filter (fun r => negb (matches w r)) (t_rows t)) (t_next_id t))
      end
  end.

Definition stmt_table (st : stmt) : string :=
  match st with
  | SInsert tb _ _ _ | SSelect tb _ _ | SUpdate tb _ _ | SDelete tb _ => tb
  end.

Definition run_stmt (s : store) (st : stmt) : result (sql_res * store) :=
  match get_table s (stmt_table st) with
  | None => Err (ErrMsg ("pq: relation " ++ stmt_table st ++ " does not exist"))
  | Some t =>
      match run_on t st with
      | Err e => Err e
      | Ok (r, t') => Ok (r, set_table s (stmt_table st) t')
      end
  end.

End Sql.
Import Sql.

(** ** The environment: database, clock, entropy, and an observation trace *)

Local Open Scope Z_scope.

Inductive event :=
| EvStmt (st : stmt)        (* a statement sent to the database *)
| EvSleep (d : Z)           (* time.Sleep(d) *)
| EvHash (cost : Z)         (* bcrypt.GenerateFromPassword at this cost *)
| EvRandRead (n : nat).     (* crypto/rand.Read into an n-byte buffer *)

(** [w_faults] lists, statement by statement, the driver failures the
    database connection produces (a transient failure); [w_rand] is what
    the k-th call of [rand.Read] delivers. *)
Record world := mkWorld {
  w_store : store;
  w_clock : Z;
  w_faults : list (option error);
  w_rand : nat -> result (list byte);
  w_rand_calls : nat;
  w_trace : list event
}.

Definition M (A : Type) : Type := world -> A * world.
Definition ret {A} (a : A) : M A := fun w => (a, w).
Definition bind {A B} (m : M A) (k : A -> M B) : M B :=
  fun w => let (a, w') := m w in k a w'.
Notation "x <- m ;; k" := (bind m (fun x => k))
  (at level 61, m at next level, right associativity).

Definition log_event (e : event) (w : world) : world :=
  mkWorld (w_store w) (w_clock w) (w_faults w) (w_rand w) (w_rand_calls w)
    (w_trace w ++ [e]).

Definition second : Z := 1000000000.
(** [const dbTimeout = time.Second * 3] *)
Definition dbTimeout : Z := second * 3.

(** [time.Now()] *)
Definition Now : M Z := fun w => (w_clock w, w).

(** [time.Sleep(d)] *)
Definition Sleep (d : Z) : M unit := fun w =>
  (tt, mkWorld (w_store w) (w_clock w + d) (w_faults w) (w_rand w)
         (w_rand_calls w) (w_trace w ++ [EvSleep d])).

(** [context.WithTimeout(context.Background(), d)]: the deadline. *)
Definition WithTimeout (d : Z) : M Z := fun w => (w_clock w + d, w).

(** [db.ExecContext] / [db.QueryContext] under a context deadline. *)
Definition Exec (deadline : Z) (st : stmt) : M (result sql_res) := fun w =>
  let w1 := log_event (EvStmt st) w in
  if Z.leb deadline (w_clock w) then
    (Err (ErrMsg "context deadline exceeded"), w1)
  else
    let fs := tl (w_faults w) in
    match w_faults w with
    | Some e :: _ =>
        (Err e, mkWorld (w_store w) (w_clock w) fs (w_rand w) (w_rand_calls w)
                  (w_trace w1))
    | _ =>
        match run_stmt (w_store w) st with
        | Ok (r, s') =>
            (Ok r, mkWorld s' (w_clock w) fs (w_rand w) (w_rand_calls w) (w_trace w1))
        | Err e =>
            (Err e, mkWorld (w_store w) (w_clock w) fs (w_rand w) (w_rand_calls w)
                      (w_trace w1))
        end
    end.

(** [db.QueryRowContext(...)] followed by [Scan]: the first row, or
    [sql.ErrNoRows]. *)
Definition QueryRow (deadline : Z) (st : stmt) : M (result (list value)) :=
  r <- Exec deadline st ;;
  ret (match r with
       | Err e => Err e
       | Ok (RRows (row :: _)) => Ok row
       | Ok _ => Err ErrNoRows
       end).

(** [rand.Read(b)]: overwrites the buffer with what the source delivers;
    the buffer keeps its length. *)
Definition RandRead (b : list byte) : M (result (list byte)) := fun w =>
  let w1 := mkWorld (w_store w) (w_clock w) (w_faults w) (w_rand w)
              (S (w_rand_calls w)) (w_trace w ++ [EvRandRead (length b)]) in
  match w_rand w (w_rand_calls w) with
  | Err e => (Err e, w1)
  | Ok src => (Ok (firstn (length b) (src ++ skipn (length src) b)), w1)
  end.

(** Pure binding on Go results. *)
Definition rbind {A B} (r : result A) (k : A -> result B) : result B :=
  match r with Ok a => k a | Err e => Err e end.
Notation "'let?' x ':=' r 'in' k" := (rbind r (fun x => k))
  (at level 200, x name, r at level 100, k at level 200).

(** [Rows.Scan] conversions into Go destinations. *)
Definition scan_err : error := ErrMsg "sql: Scan error: unsupported conversion".
Definition scan_int (v : value) : result Z :=
  match v with VInt z => Ok z | _ => Err scan_err end.
Definition scan_time := scan_int.
Definition scan_string (v : value) : result string :=
  match v with
  | VText s => Ok s
  | VBytes b => Ok (string_of_list_byte b)
  | _ => Err scan_err
  end.
Definition scan_bytes (v : value) : result (list byte) :=
  match v with
  | VBytes b => Ok b
  | VText s => Ok (list_byte_of_string s)
  | VNull => Ok []
  | _ => Err scan_err
  end.

(** ** Records *)
Module Token.
Record t := mk {
  ID : Z; UserID : Z; Email : string; Token : string; TokenHash : list byte;
  CreatedAt : Z; UpdatedAt : Z; Expiry : Z
}.
Definition zero : t := mk 0 0 EmptyString EmptyString [] 0 0 0.
End Token.

Module User.
Record t := mk {
  ID : Z; Email : string; FirstName : string; LastName : string;
  Password : string; CreatedAt : Z; UpdatedAt : Z; Token : Token.t
}.

Definition user_columns : list string :=
  ["id"; "email"; "first_name"; "last_name"; "password"; "created_at"; "updated_at"].

(** [rows.Scan(&user.ID, &user.Email, &user.FirstName, &user.LastName,
    &user.Password, &user.CreatedAt, &user.UpdatedAt)] *)
Definition scan_user (r : list value) : result t :=
  match r with
  | [id; em; fn; ln; pw; ca; ua] =>
      let? id := scan_int id in
      let? em := scan_string em in
      let? fn := scan_string fn in
      let? ln := scan_string ln in
      let? pw := scan_string pw in
      let? ca := scan_time ca in
      let? ua := scan_time ua in
      Ok (mk id em fn ln pw ca ua Token.zero)
  | _ => Err scan_err
  end.

Fixpoint scan_all (rs : list (list value)) : result (list t) :=
  match rs with
  | [] => Ok []
  | r :: rs' => let? u := scan_user r in let? us := scan_all rs' in Ok (u :: us)
  end.

(** [func (u *User) GetAll() ([]*User, error)] *)
Definition GetAll : M (result (list t)) :=
  deadline <- WithTimeout dbTimeout ;;
  r <- Exec deadline (SSelect "users" user_columns None) ;;
  ret (match r with
       | Err e => Err e
       | Ok (RRows rs) => scan_all rs
       | Ok (RAffected _) => Ok []
       end).

(** [func (u *User) GetByEmail(email string) ( *User, error)] *)
Definition GetByEmail (email : string) : M (result t) :=
  deadline <- WithTimeout dbTimeout ;;
  row <- QueryRow deadline (SSelect "users" user_columns (Some ("email", VText email))) ;;
  ret (match rbind row scan_user with
       | Ok u => Ok u
       | Err e => if Is e ErrNoRows
                  then Err (ErrMsg ("no user found with email " ++ email))
                  else Err e
       end).

(** [func (u *User) GetByID(id int) ( *User, error)] *)
Definition GetByID (id : Z) : M (result t) :=
  deadline <- WithTimeout dbTimeout ;;
  row <- QueryRow deadline (SSelect "users" user_columns (Some ("id", VInt id))) ;;
  ret (match rbind row scan_user with
       | Ok u => Ok u
       | Err e => if Is e ErrNoRows then Err (ErrMsg "user not found") else Err e
       end).

(** [func (u *User) Update(user User) error] *)
Definition Update (user : t) : M (result unit) :=
  deadline <- WithTimeout dbTimeout ;;
  r <- Exec deadline (SUpdate "users"
                        [("email", VText (Email user));
                         ("first_name", VText (FirstName user));
                         ("last_name", VText (LastName user));
                         ("updated_at", VInt (UpdatedAt user))]
                        ("id", VInt (ID user))) ;;
  ret (match r with Err e => Err e | Ok _ => Ok tt end).

(** [func (u *User) Delete(id int) error]: the result of [ExecContext]
    is discarded, only its error is inspected. *)
Definition Delete (id : Z) : M (result unit) :=
  deadline <- WithTimeout dbTimeout ;;
  r <- Exec deadline (SDelete "users" ("id", VInt id)) ;;
  ret (match r with Err e => Err e | Ok _ => Ok tt end).

(** [func (u *User) ResetPassword(password string) error]:
    [update users set password = $1 where id = $2] with the password
    string as given; a failure of [ExecContext] is only logged, and the
    method returns [nil] on every path. *)
Definition ResetPassword (u : t) (password : string) : M (result unit) :=
  deadline <- WithTimeout dbTimeout ;;
  _ <- Exec deadline (SUpdate "users" [("password", VText password)] ("id", VInt (ID u))) ;;
  ret (Ok tt).

Section Bcrypt.
(** [bcrypt.GenerateFromPassword] and [bcrypt.CompareHashAndPassword]
    (the latter returns [nil] on a match). *)
Variable GenerateFromPassword : list byte -> Z -> result (list byte).
Variable CompareHashAndPassword : list byte -> list byte -> option error.

Definition Bcrypt (password : list byte) (cost : Z) : M (result (list byte)) :=
  fun w => (GenerateFromPassword password cost, log_event (EvHash cost) w).

Definition insert_stmt (user : t) (hashed : list byte) : stmt :=
  SInsert "users"
    ["email"; "first_name"; "last_name"; "password"; "created_at"; "updated_at"]
    [VText (Email user); VText (FirstName user); VText (LastName user);
     VBytes hashed; VInt (CreatedAt user); VInt (UpdatedAt user)]
    ["id"].

Definition retryCount : nat := 3.

(** [for retries := 0; retries < retryCount; retries++ { ... }] followed
    by the final [fmt.Errorf]; [fuel] is [retryCount - retries] and
    [err] the last error seen. *)
Fixpoint insert_loop (deadline : Z) (q : stmt) (fuel retries : nat)
         (err : option error) : M (result Z) :=
  match fuel with
  | O =>
      let prefix := ("failed to insert user after " ++ itoa retryCount
                     ++ " attempts: ")%string in
      ret (Err (match err with
                | Some e => ErrWrap prefix e
                | None => ErrMsg (prefix ++ "%!w(<nil>)")
                end))
  | S fuel' =>
      row <- QueryRow deadline q ;;
      match rbind row (fun r => match r with
                                 | [v] => scan_int v
                                 | _ => Err scan_err
                                 end) with
      | Ok newID =>
          (* user.ID = newID; return 0, nil *)
          ret (Ok 0)
      | Err e =>
          _ <- (if Nat.ltb retries (retryCount - 1) then Sleep (second * 2)
                else ret tt) ;;
          insert_loop deadline q fuel' (S retries) (Some e)
      end
  end.

(** [func (u *User) Insert(user User) (int, error)] *)
Definition Insert (user : t) : M (result Z) :=
  deadline <- WithTimeout dbTimeout ;;
  h <- Bcrypt (list_byte_of_string (Password user)) 12 ;;
  match h with
  | Err e => ret (Err e)
  | Ok hashedPassword =>
      insert_loop deadline (insert_stmt user hashedPassword) retryCount 0 None
  end.

(** [func (u *User) PasswordMatches(password string) (bool, error)] *)
Definition PasswordMatches (u : t) (password : string) : bool * option error :=
  match CompareHashAndPassword (list_byte_of_string (Password u))
                               (list_byte_of_string password) with
  | None => (true, None)
  | Some err =>
      if Is err ErrMismatchedHashAndPassword then (false, None)
      else (false, Some err)
  end.
End Bcrypt.

End User.

(** ** [base32.StdEncoding.WithPadding(base32.NoPadding)] *)
Module Base32.

Definition alphabet : string := "ABCDEFGHIJKLMNOPQRSTUVWXYZ234567".

(** [enc.encode[v & 0x1F]] *)
Definition enc_char (v : Z) : ascii :=
  match String.get (Z.to_nat (Z.land v 31)) alphabet with
  | Some c => c
  | None => "A"%char
  end.

Definition byte_val (b : byte) : Z := Z.of_N (Byte.to_N b).

(** A quantum of at most five bytes as a 40-bit big-endian value, the
    missing trailing bytes read as zero. *)
Definition block_val (bs : list byte) : Z :=
  fold_left (fun acc b => acc * 256 + byte_val b)
    (bs ++ repeat x00 (5 - length bs)) 0.

(** The 5-bit groups [i], [i+1], ... of a 40-bit quantum, [k] of them. *)
Fixpoint emit (v : Z) (i k : nat) : string :=
  match k with
  | O => EmptyString
  | S k' => String (enc_char (Z.shiftr v (35 - 5 * Z.of_nat i))) (emit v (S i) k')
  end.

(** Characters written for a final block of [remain] bytes when no
    padding is requested. *)
Definition nchars (remain : nat) : nat :=
  match remain with
  | 0 => 0 | 1 => 2 | 2 => 4 | 3 => 5 | 4 => 7 | _ => 8
  end%nat.

Fixpoint EncodeToString (src : list byte) : string :=
  match src with
  | b0 :: b1 :: b2 :: b3 :: b4 :: rest =>
      emit (block_val [b0; b1; b2; b3; b4]) 0 8 ++ EncodeToString rest
  | _ => emit (block_val src) 0 (nchars (length src))
  end.

End Base32.

(** ** Token methods *)
Module Tokens.

(** The SELECT list of [GetByToken], as written in its query string. *)
Definition token_columns : list string :=
  ["id"; "user_id"; "email"; "plainText"; "token_hash"; "created_at";
   "updated_at"; "expiry"].

(** [row.Scan(&token.ID, &token.UserID, &token.Email, &token.Token,
    &token.TokenHash, &token.CreatedAt, &token.UpdatedAt, &token.Expiry)] *)
Definition scan_token (r : list value) : result Token.t :=
  match r with
  | [id; uid; em; tk; th; ca; ua; ex] =>
      let? id := scan_int id in
      let? uid := scan_int uid in
      let? em := scan_string em in
      let? tk := scan_string tk in
      let? th := scan_bytes th in
      let? ca := scan_time ca in
      let? ua := scan_time ua in
      let? ex := scan_time ex in
      Ok (Token.mk id uid em tk th ca ua ex)
  | _ => Err scan_err
  end.

(** [func (t *Token) GetByToken(plainText string) ( *Token, error)]:
    [SELECT id, user_id, email, plainText, token_hash, created_at,
    updated_at, expiry FROM tokens WHERE plainText = $1]. *)
Definition GetByToken (plainText : string) : M (result Token.t) :=
  deadline <- WithTimeout dbTimeout ;;
  row <- QueryRow deadline
           (SSelect "tokens" token_columns (Some ("plainText", VText plainText))) ;;
  ret (match rbind row scan_token with
       | Ok token => Ok token
       | Err e =>
           if Is e ErrNoRows
           then Err (ErrMsg ("no plainText found with plainText " ++ plainText))
           else Err e
       end).

(** [func (t *Token) GetUserByToken(token Token) ( *User, error)]; the
    [%v] rendering of the token in the not-found message is elided. *)
Definition GetUserByToken (token : Token.t) : M (result User.t) :=
  deadline <- WithTimeout dbTimeout ;;
  row <- QueryRow deadline
           (SSelect "users" User.user_columns (Some ("id", VInt (Token.UserID token)))) ;;
  ret (match rbind row User.scan_user with
       | Ok user => Ok user
       | Err e =>
           if Is e ErrNoRows then Err (ErrMsg "no user found with token") else Err e
       end).

Section Sha256.
(** [sha256.Sum256]: a [[32]byte] digest, sliced with [hash[:]]. *)
Variable Sum256 : list byte -> list byte.

(** [func (t *Token) GenerateToken(userID int, ttl time.Duration) ( *Token, error)] *)
Definition GenerateToken (userID : Z) (ttl : Z) : M (result Token.t) :=
  now <- Now ;;
  let expiry := now + ttl in
  r <- RandRead (repeat x00 16) ;;
  match r with
  | Err e => ret (Err e)
  | Ok randomBytes =>
      let token := Base32.EncodeToString randomBytes in
      let hash := Sum256 (list_byte_of_string token) in
      ret (Ok (Token.mk 0 userID EmptyString token hash 0 0 expiry))
  end.
End Sha256.

(** [func (t *Token) AuthenticationToken(r *http.Request) ( *User, error)],
    given the value of the [Authorization] header and the two Token
    methods it calls. *)
Definition AuthenticationToken_with
    (getByToken : string -> M (result Token.t))
    (getUserByToken : Token.t -> M (result User.t))
    (token : string) : M (result User.t) :=
  if String.eqb token "" then ret (Err (ErrMsg "no token provided")) else
  match Split token " "%char with
  | [scheme; tk] =>
      if negb (String.eqb scheme "Bearer") then
        ret (Err (ErrMsg "invalid token format"))
      else if negb (Nat.eqb (String.length tk) 26) then
        ret (Err (ErrMsg "invalid token length"))
      else
        found <- getByToken tk ;;
        match found with
        | Err _ => ret (Err (ErrMsg "no matching token found"))
        | Ok tokenModel =>
            now <- Now ;;
            (* tokenModel.Expiry.Before(time.Now()) *)
            if Z.ltb (Token.Expiry tokenModel) now then
              ret (Err (ErrMsg "token expired"))
            else
              user <- getUserByToken tokenModel ;;
              ret (match user with
                   | Err _ => Err (ErrMsg "no matching user found")
                   | Ok u => Ok u
                   end)
        end
  | _ => ret (Err (ErrMsg "invalid token format"))
  end.

Definition AuthenticationToken : string -> M (result User.t) :=
  AuthenticationToken_with GetByToken GetUserByToken.

(** [func (t *Token) DeleteToken(plainText string) error]:
    [DELETE FROM tokens WHERE plainText = $1]. *)
Definition DeleteToken (plainText : string) : M (result unit) :=
  deadline <- WithTimeout dbTimeout ;;
  r <- Exec deadline (SDelete "tokens" ("plainText", VText plainText)) ;;
  ret (match r with Err e => Err e | Ok _ => Ok tt end).

(** [func (t *Token) GetUserWithToken(token string) ( *User, error)]:
    the users query of [GetUserByToken], with the token string itself
    bound to [$1] (a text argument). *)
Definition GetUserWithToken (token : string) : M (result User.t) :=
  deadline <- WithTimeout dbTimeout ;;
  row <- QueryRow deadline
           (SSelect "users" User.user_columns (Some ("id", VText token))) ;;
  ret (match rbind row User.scan_user with
       | Ok user => Ok user
       | Err e =>
           if Is e ErrNoRows
           then Err (ErrMsg ("no user found with token " ++ token))
           else Err e
       end).

(** [func (t *Token) VaildateToken(token string) (bool, error)]: the
    same query, reporting only whether a row was scanned. *)
Definition VaildateToken (token : string) : M (bool * option error) :=
  deadline <- WithTimeout dbTimeout ;;
  row <- QueryRow deadline
           (SSelect "users" User.user_columns (Some ("id", VText token))) ;;
  ret (match rbind row User.scan_user with
       | Ok _ => (true, None)
       | Err e =>
           if Is e ErrNoRows
           then (false, Some (ErrMsg ("no user found with token " ++ token)))
           else (false, Some e)
       end).

Definition insert_token_stmt (token : Token.t) (created updated : Z) : stmt :=
  SInsert "tokens"
    ["user_id"; "email"; "token"; "token_hash"; "created_at"; "updated_at"; "expiry"]
    [VInt (Token.UserID token); VText (Token.Email token); VText (Token.Token token);
     VBytes (Token.TokenHash token); VInt created; VInt updated;
     VInt (Token.Expiry token)]
    [].

(** [func (t *Token) InsertToken(token Token) error] *)
Definition InsertToken (token : Token.t) : M (result unit) :=
  deadline <- WithTimeout dbTimeout ;;
  d <- DeleteToken (Token.Token token) ;;
  match d with
  | Err e => ret (Err e)
  | Ok _ =>
      created <- Now ;;
      updated <- Now ;;
      r <- Exec deadline (insert_token_stmt token created updated) ;;
      ret (match r with Err e => Err e | Ok _ => Ok tt end)
  end.

End Tokens.

(** ** The third copy of the [data] package in models.go *)
Module UserV3.
Import User.

(** [func (u *User) Insert(user User) error] of the third copy (lines
    913-928): a single [ExecContext] of
    [INSERT INTO users (email, first_name, last_name, password,
    created_at, updated_at) VALUES ($1, ..., $6)] with [user.Password]
    as given; no hashing, no retry. *)
Definition Insert (user : t) : M (result unit) :=
  deadline <- WithTimeout dbTimeout ;;
  r <- Exec deadline
         (SInsert "users"
            ["email"; "first_name"; "last_name"; "password"; "created_at"; "updated_at"]
            [VText (Email user); VText (FirstName user); VText (LastName user);
             VText (Password user); VInt (CreatedAt user); VInt (UpdatedAt user)]
            []) ;;
  ret (match r with Err e => Err e | Ok _ => Ok tt end).

End UserV3.

(** ** Database schema *)
Module Schema.

(** Modelled from the spec: the table definitions are not part of the
    repository sources; these are the columns of the persisted schema
    listed in the specification (section 6, External interfaces). *)
Definition users_columns : list string :=
  ["id"; "email"; "first_name"; "last_name"; "password"; "created_at"; "updated_at"].

(** Modelled from the spec: the [tokens] table of section 6. *)
Definition tokens_columns : list string :=
  ["id"; "user_id"; "email"; "token"; "token_hash"; "created_at"; "updated_at";
   "expiry"].

End Schema.

(** ** Sample inputs *)
Module Samples.

Definition store0 : store :=
  mkStore (mkTable Schema.users_columns [] 1) (mkTable Schema.tokens_columns [] 1).

(** An empty database at the spec's schema, the clock at 1000 s, no
    pending driver failure, an entropy source returning zero bytes. *)
Definition w0 : world :=
  mkWorld store0 (1000 * second) [] (fun _ => Ok (repeat x00 16)) 0 [].

Definition ada : User.t :=
  User.mk 1 "ada@example.com" "Ada" "Lovelace" "$2a$12$hash" 0 0 Token.zero.

Definition token_at (expiry : Z) : Token.t :=
  Token.mk 1 1 "ada@example.com" "AAAAAAAAAAAAAAAAAAAAAAAAAA" [] 0 0 expiry.

(** A Token Store lookup that finds the given row. *)
Definition found (t : Token.t) : string -> M (result Token.t) := fun _ => ret (Ok t).
Definition user_found (u : User.t) : Token.t -> M (result User.t) := fun _ => ret (Ok u).

(** A stored user row for [ada], in the column order of the schema. *)
Definition ada_row : row :=
  [("id", VInt 1); ("email", VText "ada@example.com"); ("first_name", VText "Ada");
   ("last_name", VText "Lovelace"); ("password", VText "$2a$12$hash");
   ("created_at", VInt 0); ("updated_at", VInt 0)].

(** A stored token row for [ada] in a [tokens] table that also has the
    [plainText] column the Token queries name. *)
Definition token_row : row :=
  [("id", VInt 1); ("user_id", VInt 1); ("email", VText "ada@example.com");
   ("token", VText "AAAAAAAAAAAAAAAAAAAAAAAAAA"); ("token_hash", VBytes []);
   ("created_at", VInt 0); ("updated_at", VInt 0); ("expiry", VInt (2000 * second));
   ("plainText", VText "AAAAAAAAAAAAAAAAAAAAAAAAAA")].

Definition store1 : store :=
  mkStore (mkTable Schema.users_columns [ada_row] 2)
    (mkTable (Schema.tokens_columns ++ ["plainText"]) [token_row] 2).

(** [store1] at 1000 s, no pending driver failure. *)
Definition w1 : world :=
  mkWorld store1 (1000 * second) [] (fun _ => Ok (repeat x00 16)) 0 [].

Definition bob : User.t :=
  User.mk 0 "bob@example.com" "Bob" "Smith" "secret" 5 6 Token.zero.

(** A second token, with a different plain text. *)
Definition token_b : Token.t :=
  Token.mk 0 1 "ada@example.com" "BBBBBBBBBBBBBBBBBBBBBBBBBB" [] 0 0 (3000 * second).

(** A stand-in for [bcrypt.GenerateFromPassword] that returns its input. *)
Definition gen_id (p : list byte) (_ : Z) : result (list byte) := Ok p.

(** [bob] as stored with id 2, after [ada_row]. *)
Definition bob_row : row :=
  [("id", VInt 2); ("email", VText "bob@example.com"); ("first_name", VText "Bob");
   ("last_name", VText "Smith"); ("password", VText "secret");
   ("created_at", VInt 5); ("updated_at", VInt 6)].

(** Two stored users, [ada] then [bob]. *)
Definition w2 : world :=
  mkWorld (mkStore (mkTable Schema.users_columns [ada_row; bob_row] 3) (tokens store1))
    (1000 * second) [] (fun _ => Ok (repeat x00 16)) 0 [].

End Samples.

(** ** Decoding of the unpadded base32 alphabet, used in proofs *)
Module B32Dec.
Import Base32.

(** Position of a character in a string. *)
Fixpoint index_in (c : ascii) (s : string) : Z :=
  match s with
  | EmptyString => 0
  | String x s' => if Ascii.eqb c x then 0 else 1 + index_in c s'
  end.

Definition dec_char (c : ascii) : Z := index_in c alphabet.

(** The 5-bit groups of a string read back as a number. *)
Fixpoint dec_groups (acc : Z) (s : string) : Z :=
  match s with
  | EmptyString => acc
  | String c s' => dec_groups (acc * 32 + dec_char c) s'
  end.

(** A byte string as a big-endian number. *)
Definition be (bs : list byte) : Z :=
  fold_left (fun acc b => acc * 256 + byte_val b) bs 0.

End B32Dec.

(** ** Header parsing *)
Definition no_space (s : string) : Prop :=
  existsb (Ascii.eqb " ") (list_ascii_of_string s) = false.

(** No driver failure is pending for the next statement. *)
Definition no_pending_fault (w : world) : Prop :=
  match w_faults w with Some _ :: _ => False | _ => True end.

(** [m] issues at most [n] effects (statements, entropy reads) and never
    sleeps: it has no retry loop. *)
Definition bounded {A} (m : M A) (n : nat) : Prop :=
  forall w, exists delta,
    w_trace (snd (m w)) = w_trace w ++ delta /\ (length delta <= n)%nat /\
    (forall d, ~ In (EvSleep d) delta).

(** The trace of [k] attempts of statement [q], two seconds apart. *)
Definition attempts (q : stmt) (k : nat) : list event :=
  EvStmt q :: concat (repeat [EvSleep (second * 2); EvStmt q] (k - 1)).

(** Whether column [c] is a key of the row. *)
Fixpoint in_keys (c : string) (r : row) : bool :=
  match r with [] => false | (c', _) :: r' => String.eqb c c' || in_keys c r' end.

(** [m] leaves the database as it found it. *)
Definition keeps_store {A} (m : M A) : Prop := forall w, w_store (snd (m w)) = w_store w.

Section HeaderParsing.

Lemma no_space_not_In (s : string) :
  no_space s -> ~ In " "%char (list_ascii_of_string s).
Proof.
  unfold no_space. intros H Hin.
  assert (existsb (Ascii.eqb " ") (list_ascii_of_string s) = true) as Ht.
  { apply existsb_exists. exists " "%char. split; [exact Hin | reflexivity]. }
  congruence.
Qed.

Lemma not_In_no_space (s : string) :
  ~ In " "%char (list_ascii_of_string s) -> no_space s.
Proof.
  unfold no_space. intros H.
  destruct (existsb (Ascii.eqb " ") (list_ascii_of_string s)) eqn:E; [|reflexivity].
  apply existsb_exists in E as (c & Hc & Hcs).
  apply Ascii.eqb_eq in Hcs. subst c. contradiction.
Qed.

Lemma Split_nonempty (s : string) (c : ascii) : Split s c <> [].
Proof.
  induction s as [|x s IH]; simpl; [discriminate|].
  destruct (Ascii.eqb x c); [discriminate|].
  destruct (Split s c); discriminate.
Qed.

Lemma Split_no_sep (s : string) (c : ascii) :
  ~ In c (list_ascii_of_string s) -> Split s c = [s].
Proof.
  induction s as [|x s IH]; intros H; simpl; [reflexivity|].
  simpl in H.
  destruct (Ascii.eqb_spec x c) as [->|Hx]; [exfalso; tauto|].
  rewrite IH by tauto. reflexivity.
Qed.

Lemma Split_one (s b : string) (c : ascii) :
  Split s c = [b] -> s = b /\ ~ In c (list_ascii_of_string b).
Proof.
  revert b; induction s as [|x s IH]; intros b H; simpl in H.
  - injection H as <-. simpl. tauto.
  - destruct (Ascii.eqb_spec x c) as [->|Hx].
    + injection H as _ H. exfalso; exact (Split_nonempty s c H).
    + destruct (Split s c) as [|p ps] eqn:E; [exfalso; exact (Split_nonempty s c E)|].
      injection H as <- ->.
      destruct (IH p eq_refl) as [-> Hp].
      split; [reflexivity|]. simpl. intros [Hxc|Hin]; [congruence|tauto].
Qed.

Lemma Split_two (s a b : string) (c : ascii) :
  Split s c = [a; b] -> s = (a ++ String c b)%string /\ ~ In c (list_ascii_of_string b).
Proof.
  revert a; induction s as [|x s IH]; intros a H; simpl in H; [discriminate|].
  destruct (Ascii.eqb_spec x c) as [->|Hx].
  - injection H as <- H. destruct (Split_one s b c H) as [-> Hb]. simpl. tauto.
  - destruct (Split s c) as [|p ps] eqn:E; [discriminate|].
    injection H as <- ->.
    destruct (IH p eq_refl) as [-> Hb]. simpl. tauto.
Qed.

Lemma Split_bearer (tk : string) :
  no_space tk -> Split ("Bearer " ++ tk)%string " "%char = ["Bearer"; tk].
Proof.
  intros H. cbn [append Split].
  rewrite (Split_no_sep tk _ (no_space_not_In tk H)). reflexivity.
Qed.

(** After the shape and length checks, [AuthenticationToken] is the
    lookup followed by the expiry check and the user lookup. *)
Lemma auth_bearer_eq get getUser tk w :
  no_space tk -> String.length tk = 26%nat ->
  Tokens.AuthenticationToken_with get getUser ("Bearer " ++ tk)%string w =
  let (found, w1) := get tk w in
  match found with
  | Err _ => (Err (ErrMsg "no matching token found"), w1)
  | Ok tm =>
      if Z.ltb (Token.Expiry tm) (w_clock w1) then (Err (ErrMsg "token expired"), w1)
      else let (u, w2) := getUser tm w1 in
           (match u with
            | Err _ => Err (ErrMsg "no matching user found")
            | Ok u => Ok u
            end, w2)
  end.
Proof.
  intros Hs Hl. unfold Tokens.AuthenticationToken_with.
  replace (String.eqb ("Bearer " ++ tk) "") with false by reflexivity.
  rewrite (Split_bearer tk Hs).
  replace (String.eqb "Bearer" "Bearer") with true by reflexivity.
  rewrite Hl. cbn [Nat.eqb negb].
  unfold bind, Now, ret.
  destruct (get tk w) as [[tm|e] w1]; [|reflexivity].
  destruct (Z.ltb (Token.Expiry tm) (w_clock w1)); [reflexivity|].
  destruct (getUser tm w1) as [[u|e] w2]; reflexivity.
Qed.

(** A string containing the separator splits into at least two parts. *)
Lemma Split_sep (s : string) (c : ascii) :
  In c (list_ascii_of_string s) -> exists a b rest, Split s c = a :: b :: rest.
Proof.
  intros H. destruct (Split s c) as [|a [|b rest]] eqn:E.
  - exfalso; exact (Split_nonempty s c E).
  - exfalso. destruct (Split_one s a c E) as [-> Ha]. exact (Ha H).
  - eauto.
Qed.

(** A header whose token literal contains a space fails the shape check. *)
Lemma auth_space_rejected get getUser tk w :
  ~ no_space tk ->
  Tokens.AuthenticationToken_with get getUser ("Bearer " ++ tk)%string w
  = (Err (ErrMsg "invalid token format"), w).
Proof.
  intros Hs.
  assert (Hin : In " "%char (list_ascii_of_string tk)).
  { destruct (in_dec ascii_dec " "%char (list_ascii_of_string tk)) as [H|H]; [exact H|].
    exfalso. exact (Hs (not_In_no_space tk H)). }
  destruct (Split_sep tk " "%char Hin) as (a & b & rest & E).
  unfold Tokens.AuthenticationToken_with.
  replace (String.eqb ("Bearer " ++ tk) "") with false by reflexivity.
  replace (Split ("Bearer " ++ tk)%string " "%char) with ("Bearer" :: Split tk " "%char)
    by reflexivity.
  rewrite E. reflexivity.
Qed.

End HeaderParsing.

(** ** Store lemmas *)

Lemma set_get_table (s : store) (name : string) (t : table) :
  get_table s name = Some t -> set_table s name t = s.
Proof.
  unfold get_table, set_table. destruct s as [u tk]; simpl.
  destruct (String.eqb name "users"); [intros H; injection H as <-; reflexivity|].
  destruct (String.eqb name "tokens"); [intros H; injection H as <-; reflexivity|].
  discriminate.
Qed.

Lemma run_stmt_select_store (s s' : store) tb cols wh r :
  run_stmt s (SSelect tb cols wh) = Ok (r, s') -> s' = s.
Proof.
  unfold run_stmt. simpl stmt_table.
  destruct (get_table s tb) as [t|] eqn:G; [|discriminate].
  simpl. destruct (check_columns t (cols ++ where_cols wh)); [|discriminate].
  intros H; injection H as _ <-. apply set_get_table; exact G.
Qed.

Lemma Exec_select_store d tb cols wh w :
  w_store (snd (Exec d (SSelect tb cols wh) w)) = w_store w.
Proof.
  unfold Exec. destruct (Z.leb d (w_clock w)); [reflexivity|].
  destruct (w_faults w) as [|[e|] fs]; try reflexivity;
  destruct (run_stmt (w_store w) (SSelect tb cols wh)) as [[r s']|e] eqn:E;
  try reflexivity; simpl; eapply run_stmt_select_store; exact E.
Qed.

Lemma GetByToken_store p w : w_store (snd (Tokens.GetByToken p w)) = w_store w.
Proof.
  unfold Tokens.GetByToken, QueryRow, WithTimeout, bind, ret.
  rewrite <- (Exec_select_store (w_clock w + dbTimeout) "tokens" Tokens.token_columns
                (Some ("plainText", VText p)) w).
  destruct (Exec _ _ w) as [r w1]. reflexivity.
Qed.

(** ** Request authenticator *)

(** C1 (as stated).  A token whose [expiry] equals the current time is
    accepted: [Expiry.Before(time.Now())] is a strict comparison. *)
Lemma C1_expiry_equal_to_now_accepted :
  Token.Expiry (Samples.token_at (1000 * second)) = w_clock Samples.w0 /\
  fst (Tokens.AuthenticationToken_with (Samples.found (Samples.token_at (1000 * second)))
         (Samples.user_found Samples.ada) "Bearer AAAAAAAAAAAAAAAAAAAAAAAAAA" Samples.w0)
  = Ok Samples.ada.
Proof. split; reflexivity. Qed.

(** C1 (amended).  Once the Token Store lookup has returned the row [t],
    [AuthenticationToken] fails with "token expired" exactly when
    [t.Expiry] is strictly before the current time, and then returns the
    world the lookup left, issuing nothing further (no delete); otherwise
    (including [t.Expiry] equal to now) it goes on to resolve the user.
    The Token Store lookup [GetByToken] itself never changes the store. *)
Theorem C1_expiry_check get getUser tk t w w1 :
  no_space tk -> String.length tk = 26%nat -> get tk w = (Ok t, w1) ->
  (Token.Expiry t < w_clock w1 ->
   Tokens.AuthenticationToken_with get getUser ("Bearer " ++ tk)%string w
   = (Err (ErrMsg "token expired"), w1)) /\
  (w_clock w1 <= Token.Expiry t ->
   Tokens.AuthenticationToken_with get getUser ("Bearer " ++ tk)%string w
   = let (u, w2) := getUser t w1 in
     (match u with Err _ => Err (ErrMsg "no matching user found") | Ok u => Ok u end, w2)) /\
  (forall p w', w_store (snd (Tokens.GetByToken p w')) = w_store w').
Proof.
  intros Hs Hl Hg. rewrite (auth_bearer_eq get getUser tk w Hs Hl), Hg.
  split; [|split].
  - intros Hlt. apply Z.ltb_lt in Hlt. rewrite Hlt. reflexivity.
  - intros Hle. assert (Z.ltb (Token.Expiry t) (w_clock w1) = false) as Hf
      by (apply Z.ltb_ge; exact Hle).
    rewrite Hf. reflexivity.
  - exact GetByToken_store.
Qed.

Lemma C1_expiry_check_witness :
  no_space "AAAAAAAAAAAAAAAAAAAAAAAAAA" /\
  String.length "AAAAAAAAAAAAAAAAAAAAAAAAAA" = 26%nat /\
  Samples.found (Samples.token_at (999 * second)) "AAAAAAAAAAAAAAAAAAAAAAAAAA" Samples.w0
    = (Ok (Samples.token_at (999 * second)), Samples.w0) /\
  (Token.Expiry (Samples.token_at (999 * second)) < w_clock Samples.w0 ->
   Tokens.AuthenticationToken_with (Samples.found (Samples.token_at (999 * second)))
     (Samples.user_found Samples.ada) ("Bearer " ++ "AAAAAAAAAAAAAAAAAAAAAAAAAA")%string
     Samples.w0
   = (Err (ErrMsg "token expired"), Samples.w0)).
Proof.
  split; [reflexivity|]. split; [reflexivity|]. split; [reflexivity|].
  apply (C1_expiry_check (Samples.found (Samples.token_at (999 * second)))
           (Samples.user_found Samples.ada) "AAAAAAAAAAAAAAAAAAAAAAAAAA"
           (Samples.token_at (999 * second)) Samples.w0 Samples.w0);
    reflexivity.
Defined.

(** C6.  The checks of [AuthenticationToken] in order: an empty header
    fails with "no token provided" and a header that is not ["Bearer "]
    followed by a space-free token with "invalid token format" (together
    the MalformedHeader kind); a space-free token literal whose length is
    not 26 fails with "invalid token length" (InvalidTokenLength); a
    well-shaped 26-byte token for which the Token Store lookup fails
    ends with "no matching token found" (TokenNotFound). *)
Theorem C6_rejection_order get getUser :
  (forall w, fst (Tokens.AuthenticationToken_with get getUser "" w)
             = Err (ErrMsg "no token provided")) /\
  (forall h w, h <> "" ->
     (forall tk, h = ("Bearer " ++ tk)%string -> ~ no_space tk) ->
     fst (Tokens.AuthenticationToken_with get getUser h w)
     = Err (ErrMsg "invalid token format")) /\
  (forall tk w, no_space tk -> String.length tk <> 26%nat ->
     fst (Tokens.AuthenticationToken_with get getUser ("Bearer " ++ tk)%string w)
     = Err (ErrMsg "invalid token length")) /\
  (forall tk w, no_space tk -> String.length tk = 26%nat ->
     (exists e, fst (get tk w) = Err e) ->
     Tokens.AuthenticationToken_with get getUser ("Bearer " ++ tk)%string w
     = (Err (ErrMsg "no matching token found"), snd (get tk w))) /\
  (forall w, fst (Tokens.AuthenticationToken_with get getUser "Token abc" w)
             = Err (ErrMsg "invalid token format")) /\
  (forall w, fst (Tokens.AuthenticationToken_with get getUser "Bearer ab" w)
             = Err (ErrMsg "invalid token length")).
Proof.
  split; [reflexivity|]. split; [|split; [|split; [|split; reflexivity]]].
  - intros h w Hne Hshape. unfold Tokens.AuthenticationToken_with.
    destruct (String.eqb_spec h "") as [->|_]; [congruence|].
    destruct (Split h " ") as [|a [|b [|x l]]] eqn:E; try reflexivity.
    destruct (String.eqb_spec a "Bearer") as [->|Ha]; [|reflexivity].
    exfalso. destruct (Split_two h "Bearer" b " " E) as [Hh Hb].
    apply (Hshape b); [rewrite Hh; reflexivity|].
    apply not_In_no_space; exact Hb.
  - intros tk w Hs Hl. unfold Tokens.AuthenticationToken_with.
    replace (String.eqb ("Bearer " ++ tk) "") with false by reflexivity.
    rewrite (Split_bearer tk Hs).
    replace (String.eqb "Bearer" "Bearer") with true by reflexivity.
    apply Nat.eqb_neq in Hl. rewrite Hl. reflexivity.
  - intros tk w Hs Hl [e He]. rewrite (auth_bearer_eq get getUser tk w Hs Hl).
    destruct (get tk w) as [r w1]. simpl in He. subst r. reflexivity.
Qed.

Lemma C6_rejection_order_witness :
  Tokens.AuthenticationToken ("Bearer " ++ "ZZZZZZZZZZZZZZZZZZZZZZZZZZ")%string Samples.w0
  = (Err (ErrMsg "no matching token found"),
     snd (Tokens.GetByToken "ZZZZZZZZZZZZZZZZZZZZZZZZZZ" Samples.w0)).
Proof.
  destruct (C6_rejection_order Tokens.GetByToken Tokens.GetUserByToken)
    as (_ & _ & _ & H & _).
  apply H; [reflexivity | reflexivity | eexists; reflexivity].
Defined.

(** C10 (as stated).  A 26-byte token literal containing a space is
    outside the base32 alphabet but is refused by the shape check, not
    passed to the lookup. *)
Lemma C10_space_in_token_rejected :
  String.length "AAAAAAAAAAAAA AAAAAAAAAAAA" = 26%nat /\
  fst (Tokens.AuthenticationToken ("Bearer " ++ "AAAAAAAAAAAAA AAAAAAAAAAAA")%string
         Samples.w0)
  = Err (ErrMsg "invalid token format").
Proof. split; reflexivity. Qed.

(** C10 (amended).  Only the length (in bytes) of the token literal is
    checked, not its alphabet: for every space-free 26-byte string [tk],
    the header ["Bearer " ++ tk] passes the shape and length checks and
    [AuthenticationToken] continues with the Token Store lookup of [tk];
    a token literal that contains a space (of any length, 26 included)
    fails the shape check with "invalid token format" and no effect. *)
Theorem C10_lookup_reached get getUser w :
  (forall tk, no_space tk -> String.length tk = 26%nat ->
   Tokens.AuthenticationToken_with get getUser ("Bearer " ++ tk)%string w =
   let (found, w1) := get tk w in
   match found with
   | Err _ => (Err (ErrMsg "no matching token found"), w1)
   | Ok tm =>
       if Z.ltb (Token.Expiry tm) (w_clock w1) then (Err (ErrMsg "token expired"), w1)
       else let (u, w2) := getUser tm w1 in
            (match u with
             | Err _ => Err (ErrMsg "no matching user found")
             | Ok u => Ok u
             end, w2)
   end) /\
  (forall tk, ~ no_space tk ->
   Tokens.AuthenticationToken_with get getUser ("Bearer " ++ tk)%string w
   = (Err (ErrMsg "invalid token format"), w)).
Proof.
  split; intros tk.
  - exact (auth_bearer_eq get getUser tk w).
  - exact (auth_space_rejected get getUser tk w).
Qed.

Lemma C10_lookup_reached_witness :
  no_space "ab-d.f~h!j*l(n)p_r+t=v?x@z" /\
  String.length "ab-d.f~h!j*l(n)p_r+t=v?x@z" = 26%nat /\
  Tokens.AuthenticationToken_with (Samples.found (Samples.token_at (2000 * second)))
    (Samples.user_found Samples.ada) ("Bearer " ++ "ab-d.f~h!j*l(n)p_r+t=v?x@z")%string
    Samples.w0
  = (Ok Samples.ada, Samples.w0) /\
  ~ no_space "AAAAAAAAAAAAA AAAAAAAAAAAA" /\
  Tokens.AuthenticationToken_with (Samples.found (Samples.token_at (2000 * second)))
    (Samples.user_found Samples.ada) ("Bearer " ++ "AAAAAAAAAAAAA AAAAAAAAAAAA")%string
    Samples.w0
  = (Err (ErrMsg "invalid token format"), Samples.w0).
Proof.
  destruct (C10_lookup_reached (Samples.found (Samples.token_at (2000 * second)))
              (Samples.user_found Samples.ada) Samples.w0) as [H1 H2].
  split; [reflexivity|]. split; [reflexivity|].
  split; [rewrite (H1 "ab-d.f~h!j*l(n)p_r+t=v?x@z"); reflexivity|].
  split; [unfold no_space; discriminate|].
  apply H2. unfold no_space. discriminate.
Defined.

(** ** Token issuer *)
Section Base32Facts.
Import Base32.

Lemma get_In (n : nat) (s : string) (c : ascii) :
  String.get n s = Some c -> In c (list_ascii_of_string s).
Proof.
  revert n; induction s as [|x s IH]; intros n H; [discriminate|].
  destruct n as [|n]; simpl in *; [injection H as ->; left; reflexivity|].
  right; exact (IH n H).
Qed.

Lemma enc_char_In (v : Z) : In (enc_char v) (list_ascii_of_string alphabet).
Proof.
  unfold enc_char.
  destruct (String.get (Z.to_nat (Z.land v 31)) alphabet) as [c|] eqn:E.
  - exact (get_In _ _ _ E).
  - left; reflexivity.
Qed.

Lemma list_ascii_of_string_app (s1 s2 : string) :
  list_ascii_of_string (s1 ++ s2) = list_ascii_of_string s1 ++ list_ascii_of_string s2.
Proof. induction s1 as [|x s1 IH]; simpl; [reflexivity|]. rewrite IH; reflexivity. Qed.

Lemma string_length_app (s1 s2 : string) :
  String.length (s1 ++ s2) = (String.length s1 + String.length s2)%nat.
Proof. induction s1 as [|x s1 IH]; simpl; [reflexivity|]. rewrite IH; reflexivity. Qed.

Lemma emit_length (v : Z) (i k : nat) : String.length (emit v i k) = k.
Proof. revert i; induction k as [|k IH]; intros i; simpl; [reflexivity|]. rewrite IH; reflexivity. Qed.

Lemma emit_chars (v : Z) (i k : nat) (c : ascii) :
  In c (list_ascii_of_string (emit v i k)) -> In c (list_ascii_of_string alphabet).
Proof.
  revert i; induction k as [|k IH]; intros i H; simpl in H; [contradiction|].
  destruct H as [<-|H]; [apply enc_char_In | exact (IH _ H)].
Qed.

(** [EncodedLen] without padding is [(8 n + 4) / 5], and every
    character is taken from the alphabet. *)
Lemma EncodeToString_spec (n : nat) (src : list byte) :
  (length src <= n)%nat ->
  String.length (EncodeToString src) = ((8 * length src + 4) / 5)%nat /\
  (forall c, In c (list_ascii_of_string (EncodeToString src)) ->
             In c (list_ascii_of_string alphabet)).
Proof.
  revert src; induction n as [|n IH]; intros src Hn.
  - destruct src; [|simpl in Hn; lia]. split; [reflexivity|]. simpl. tauto.
  - destruct src as [|b0 [|b1 [|b2 [|b3 [|b4 rest]]]]];
      try (split; [cbn [EncodeToString]; rewrite emit_length; reflexivity
                  | intros c; cbn [EncodeToString]; apply emit_chars]).
    cbn [EncodeToString].
    destruct (IH rest) as [IHl IHc]; [simpl in Hn; lia|].
    split.
    + rewrite string_length_app, emit_length, IHl. simpl length.
      replace (8 * S (S (S (S (S (length rest))))) + 4)%nat
        with ((8 * length rest + 4) + 8 * 5)%nat by lia.
      rewrite Nat.div_add by lia. lia.
    + intros c. rewrite list_ascii_of_string_app. intros Hc.
      apply in_app_or in Hc as [Hc|Hc]; [exact (emit_chars _ _ _ _ Hc) | exact (IHc c Hc)].
Qed.

End Base32Facts.

(** C4.  A successful [GenerateToken] returns a 26-character token over the
    unpadded base32 alphabet that encodes the 16 bytes drawn by
    [rand.Read] (the buffer [RandRead] delivers, in the state the call
    leaves); its [TokenHash] is the SHA-256 digest (32 bytes) of that
    exact string, its [Expiry] the current time plus [ttl], and its
    [UserID] the given user. *)
Theorem C4_generate_token Sum256 userID ttl w t w' :
  (forall b, length (Sum256 b) = 32%nat) ->
  Tokens.GenerateToken Sum256 userID ttl w = (Ok t, w') ->
  String.length (Token.Token t) = 26%nat /\
  (forall c, In c (list_ascii_of_string (Token.Token t)) ->
             In c (list_ascii_of_string Base32.alphabet)) /\
  (exists b, RandRead (repeat x00 16) w = (Ok b, w') /\ length b = 16%nat /\
             Token.Token t = Base32.EncodeToString b) /\
  Token.TokenHash t = Sum256 (list_byte_of_string (Token.Token t)) /\
  length (Token.TokenHash t) = 32%nat /\
  Token.Expiry t = w_clock w + ttl /\
  Token.UserID t = userID.
Proof.
  intros Hlen H.
  unfold Tokens.GenerateToken, bind, Now, RandRead, ret in H. simpl in H.
  destruct (w_rand w (w_rand_calls w)) as [src|e] eqn:Hr; [|discriminate].
  injection H as <- Hw. simpl.
  set (b := firstn 16 (src ++ skipn (length src) (repeat x00 16))).
  assert (Hb : length b = 16%nat).
  { unfold b. rewrite length_firstn, length_app, length_skipn, repeat_length. lia. }
  destruct (EncodeToString_spec 16 b ltac:(lia)) as [Hl Hc].
  rewrite Hb in Hl.
  split; [exact Hl|]. split; [exact Hc|].
  split; [exists b; split; [unfold RandRead; rewrite Hr, <- Hw; reflexivity | split; [exact Hb | reflexivity]]|].
  split; [reflexivity|]. split; [apply Hlen|]. split; reflexivity.
Qed.

Lemma C4_generate_token_witness :
  (forall b : list byte, length (repeat x00 32) = 32%nat) /\
  Tokens.GenerateToken (fun _ => repeat x00 32) 7 (24 * 3600 * second) Samples.w0
  = (Ok (Token.mk 0 7 "" "AAAAAAAAAAAAAAAAAAAAAAAAAA" (repeat x00 32) 0 0
                  (1000 * second + 24 * 3600 * second)),
     snd (Tokens.GenerateToken (fun _ => repeat x00 32) 7 (24 * 3600 * second) Samples.w0)) /\
  String.length "AAAAAAAAAAAAAAAAAAAAAAAAAA" = 26%nat.
Proof.
  split; [intros; reflexivity|]. split; [reflexivity|].
  destruct (C4_generate_token (fun _ => repeat x00 32) 7 (24 * 3600 * second) Samples.w0
              (Token.mk 0 7 "" "AAAAAAAAAAAAAAAAAAAAAAAAAA" (repeat x00 32) 0 0
                 (1000 * second + 24 * 3600 * second))
              (snd (Tokens.GenerateToken (fun _ => repeat x00 32) 7 (24 * 3600 * second)
                      Samples.w0)))
    as [Hl _]; [intros; reflexivity | reflexivity | exact Hl].
Defined.

(** ** Credential store *)

(** C9.  [PasswordMatches] reports a match as [(true, nil)], a mismatch
    (any error that [errors.Is] relates to [ErrMismatchedHashAndPassword])
    as [(false, nil)], and returns every other comparison failure as its
    error. *)
Theorem C9_password_matches cmp u pw :
  (cmp (list_byte_of_string (User.Password u)) (list_byte_of_string pw) = None ->
   User.PasswordMatches cmp u pw = (true, None)) /\
  (forall e, cmp (list_byte_of_string (User.Password u)) (list_byte_of_string pw) = Some e ->
   Is e ErrMismatchedHashAndPassword = true ->
   User.PasswordMatches cmp u pw = (false, None)) /\
  (forall e, cmp (list_byte_of_string (User.Password u)) (list_byte_of_string pw) = Some e ->
   Is e ErrMismatchedHashAndPassword = false ->
   User.PasswordMatches cmp u pw = (false, Some e)).
Proof.
  unfold User.PasswordMatches. split; [|split].
  - intros H; rewrite H; reflexivity.
  - intros e H Hm; rewrite H, Hm; reflexivity.
  - intros e H Hm; rewrite H, Hm; reflexivity.
Qed.

Lemma C9_password_matches_witness :
  (fun h p : list byte =>
     if bytes_eqb h p then None else Some ErrMismatchedHashAndPassword)
    (list_byte_of_string (User.Password Samples.ada)) (list_byte_of_string "wrong")
  = Some ErrMismatchedHashAndPassword /\
  Is ErrMismatchedHashAndPassword ErrMismatchedHashAndPassword = true /\
  User.PasswordMatches
    (fun h p => if bytes_eqb h p then None else Some ErrMismatchedHashAndPassword)
    Samples.ada "wrong" = (false, None).
Proof.
  split; [reflexivity|]. split; [reflexivity|].
  destruct (C9_password_matches
              (fun h p => if bytes_eqb h p then None else Some ErrMismatchedHashAndPassword)
              Samples.ada "wrong") as (_ & H & _).
  apply (H ErrMismatchedHashAndPassword); reflexivity.
Defined.

(** The fresh context deadline of an operation lies in the future. *)
Lemma fresh_deadline (c : Z) : Z.leb (c + dbTimeout) c = false.
Proof. apply Z.leb_gt. unfold dbTimeout, second. lia. Qed.


(** C3 (as stated).  Deleting an id that has no row is not an error. *)
Lemma C3_delete_missing_id_ok :
  t_rows (users (w_store Samples.w0)) = [] /\
  fst (User.Delete 5 Samples.w0) = Ok tt.
Proof. split; reflexivity. Qed.

(** C3 (amended).  [Delete(id)] removes the rows whose [id] is [id] and
    succeeds whether or not such a row existed (the affected-row count of
    [ExecContext] is discarded); an error is returned only when the
    statement itself fails, e.g. a driver failure. *)
Theorem C3_delete_user id w :
  has_column (users (w_store w)) "id" = true ->
  (no_pending_fault w ->
   fst (User.Delete id w) = Ok tt /\
   t_rows (users (w_store (snd (User.Delete id w))))
   = filter (fun r => negb (matches ("id", VInt id) r)) (t_rows (users (w_store w)))) /\
  (forall e fs, w_faults w = Some e :: fs -> fst (User.Delete id w) = Err e).
Proof.
  intros Hc. unfold User.Delete, bind, WithTimeout, Exec, ret, no_pending_fault.
  rewrite fresh_deadline. split.
  - intros Hf.
    destruct (w_faults w) as [|[e|] fs]; [| contradiction |];
    unfold run_stmt; simpl; rewrite Hc; simpl; split; reflexivity.
  - intros e fs ->. reflexivity.
Qed.

Lemma C3_delete_user_witness :
  has_column (users (w_store Samples.w0)) "id" = true /\
  no_pending_fault Samples.w0 /\
  fst (User.Delete 5 Samples.w0) = Ok tt.
Proof.
  split; [reflexivity|]. split; [exact I|].
  destruct (C3_delete_user 5 Samples.w0) as [H _]; [reflexivity|].
  destruct (H I) as [Hok _]. exact Hok.
Defined.

(** ** Token store *)

Lemma tokens_columns_no_plainText :
  existsb (String.eqb "plainText") Schema.tokens_columns = false.
Proof. reflexivity. Qed.

(** At the spec's schema, [DELETE FROM tokens WHERE plainText = $1] names
    a column the table does not have. *)
Lemma DeleteToken_fails p w :
  t_columns (tokens (w_store w)) = Schema.tokens_columns ->
  (exists e, fst (Tokens.DeleteToken p w) = Err e) /\
  w_store (snd (Tokens.DeleteToken p w)) = w_store w.
Proof.
  intros Hc. unfold Tokens.DeleteToken, bind, WithTimeout, Exec, ret.
  rewrite fresh_deadline.
  destruct (w_faults w) as [|[e|] fs];
    try (split; [eexists; reflexivity | reflexivity]);
    unfold run_stmt; simpl; unfold has_column; rewrite Hc; simpl;
    (split; [eexists; reflexivity | reflexivity]).
Qed.

Lemma GetByToken_fails p w :
  t_columns (tokens (w_store w)) = Schema.tokens_columns ->
  exists e, fst (Tokens.GetByToken p w) = Err e.
Proof.
  intros Hc. unfold Tokens.GetByToken, QueryRow, bind, WithTimeout, Exec, ret.
  rewrite fresh_deadline.
  destruct (w_faults w) as [|[e|] fs];
    [| simpl; destruct (Is e ErrNoRows); eexists; reflexivity |];
    unfold run_stmt; simpl; unfold has_column; rewrite Hc; simpl;
    eexists; reflexivity.
Qed.

(** C7 (code defect).  [DeleteToken] filters on a column [plainText],
    while [InsertToken] stores the token in column [token]: at the schema
    of the spec every call fails, the first as well as the second. *)
Theorem C7_delete_token_fails p w :
  t_columns (tokens (w_store w)) = Schema.tokens_columns ->
  (exists e, fst (Tokens.DeleteToken p w) = Err e) /\
  (exists e, fst (Tokens.DeleteToken p (snd (Tokens.DeleteToken p w))) = Err e).
Proof.
  intros Hc. destruct (DeleteToken_fails p w Hc) as [H1 Hs].
  split; [exact H1|]. apply DeleteToken_fails. rewrite Hs. exact Hc.
Qed.

Lemma C7_delete_token_fails_witness :
  t_columns (tokens (w_store Samples.w0)) = Schema.tokens_columns /\
  exists e, fst (Tokens.DeleteToken "AAAAAAAAAAAAAAAAAAAAAAAAAA"
                   (snd (Tokens.DeleteToken "AAAAAAAAAAAAAAAAAAAAAAAAAA" Samples.w0)))
            = Err e.
Proof.
  split; [reflexivity|].
  apply (C7_delete_token_fails "AAAAAAAAAAAAAAAAAAAAAAAAAA" Samples.w0). reflexivity.
Defined.

(** C5 (code defect).  [InsertToken] first runs [DeleteToken], which fails
    at the spec's schema, so nothing is inserted and the store is
    unchanged; and [GetByToken] filters on the same missing column, so the
    round trip never yields a record. *)
Theorem C5_insert_then_get_fails t w :
  t_columns (tokens (w_store w)) = Schema.tokens_columns ->
  (exists e, fst (Tokens.InsertToken t w) = Err e) /\
  w_store (snd (Tokens.InsertToken t w)) = w_store w /\
  (exists e, fst (Tokens.GetByToken (Token.Token t) (snd (Tokens.InsertToken t w))) = Err e).
Proof.
  intros Hc.
  assert (H : (exists e, fst (Tokens.InsertToken t w) = Err e) /\
              w_store (snd (Tokens.InsertToken t w)) = w_store w).
  { destruct (DeleteToken_fails (Token.Token t) w Hc) as [[e He] Hs].
    unfold Tokens.InsertToken, bind, WithTimeout. cbn beta iota.
    destruct (Tokens.DeleteToken (Token.Token t) w) as [d w1]. simpl in He, Hs. subst d.
    split; [eexists; reflexivity | exact Hs]. }
  destruct H as [H1 H2]. split; [exact H1|]. split; [exact H2|].
  apply GetByToken_fails. rewrite H2. exact Hc.
Qed.

Lemma C5_insert_then_get_fails_witness :
  t_columns (tokens (w_store Samples.w0)) = Schema.tokens_columns /\
  exists e, fst (Tokens.GetByToken "AAAAAAAAAAAAAAAAAAAAAAAAAA"
                   (snd (Tokens.InsertToken (Samples.token_at (2000 * second)) Samples.w0)))
            = Err e.
Proof.
  split; [reflexivity|].
  exact (proj2 (proj2 (C5_insert_then_get_fails (Samples.token_at (2000 * second))
                         Samples.w0 eq_refl))).
Defined.

(** Even at a schema that also had a [plainText] column, the row that
    [InsertToken] writes leaves [plainText] NULL, so [GetByToken] of its
    token finds nothing. *)
Lemma InsertToken_GetByToken_plainText_schema :
  let w := mkWorld (mkStore (users Samples.store0)
                      (mkTable (Schema.tokens_columns ++ ["plainText"]) [] 1))
             (1000 * second) [] (fun _ => Ok (repeat x00 16)) 0 [] in
  fst (Tokens.InsertToken (Samples.token_at (2000 * second)) w) = Ok tt /\
  fst (Tokens.GetByToken "AAAAAAAAAAAAAAAAAAAAAAAAAA"
         (snd (Tokens.InsertToken (Samples.token_at (2000 * second)) w)))
  = Err (ErrMsg "no plainText found with plainText AAAAAAAAAAAAAAAAAAAAAAAAAA").
Proof. split; reflexivity. Qed.

(** C2 (code defect).  After hashing the password at cost 12, [Insert]
    inserts the row (with the hash in [password] and the generated [id]),
    and then returns [0] instead of that id: [user.ID = newID] only
    updates the local copy, and the function returns [0, nil]. *)
Theorem C2_insert_returns_zero gen u w hashed :
  gen (list_byte_of_string (User.Password u)) 12 = Ok hashed ->
  no_pending_fault w ->
  t_columns (users (w_store w)) = Schema.users_columns ->
  fst (User.Insert gen u w) = Ok 0 /\
  w_trace (snd (User.Insert gen u w))
  = w_trace w ++ [EvHash 12; EvStmt (User.insert_stmt u hashed)] /\
  exists row,
    t_rows (users (w_store (snd (User.Insert gen u w))))
    = t_rows (users (w_store w)) ++ [row] /\
    row_get row "id" = VInt (t_next_id (users (w_store w))) /\
    row_get row "password" = VBytes hashed.
Proof.
  intros Hgen Hf Hc.
  destruct w as [[[ucols urows unext] tks] clock faults rnd calls tr].
  simpl in Hc. subst ucols. unfold no_pending_fault in Hf. simpl in Hf.
  unfold User.Insert, User.Bcrypt, bind, WithTimeout. cbn beta iota.
  rewrite Hgen. cbn [User.insert_loop User.retryCount].
  unfold QueryRow, bind, Exec, ret, log_event. cbn [w_clock w_faults w_trace w_store].
  rewrite fresh_deadline.
  destruct faults as [|[e|] fs]; [| contradiction |]; cbn;
    (split; [reflexivity|]); (split; [rewrite <- app_assoc; reflexivity|]);
    eexists; (split; [reflexivity|]); split; reflexivity.
Qed.

Lemma C2_insert_returns_zero_witness :
  (fun (p : list byte) (_ : Z) => Ok p : result (list byte))
    (list_byte_of_string (User.Password Samples.ada)) 12
  = Ok (list_byte_of_string (User.Password Samples.ada)) /\
  no_pending_fault Samples.w0 /\
  t_next_id (users (w_store Samples.w0)) = 1 /\
  fst (User.Insert (fun p _ => Ok p) Samples.ada Samples.w0) = Ok 0.
Proof.
  split; [reflexivity|]. split; [exact I|]. split; [reflexivity|].
  apply (C2_insert_returns_zero (fun p _ => Ok p) Samples.ada Samples.w0
           (list_byte_of_string (User.Password Samples.ada)));
    [reflexivity | exact I | reflexivity].
Defined.

(** ** Retries *)



Lemma Exec_trace d st w :
  w_trace (snd (Exec d st w)) = w_trace w ++ [EvStmt st].
Proof.
  unfold Exec. destruct (Z.leb d (w_clock w)); [reflexivity|].
  destruct (w_faults w) as [|[e|] fs]; try reflexivity;
    destruct (run_stmt (w_store w) st) as [[r s']|e]; reflexivity.
Qed.

Lemma bounded_ret {A} (a : A) n : bounded (ret a) n.
Proof. intros w. exists []. rewrite app_nil_r. split; [reflexivity|]. simpl. split; [lia | tauto]. Qed.

Lemma bounded_Now n : bounded Now n.
Proof. intros w. exists []. rewrite app_nil_r. split; [reflexivity|]. simpl. split; [lia | tauto]. Qed.

Lemma bounded_WithTimeout d n : bounded (WithTimeout d) n.
Proof. intros w. exists []. rewrite app_nil_r. split; [reflexivity|]. simpl. split; [lia | tauto]. Qed.

Lemma bounded_Exec d st : bounded (Exec d st) 1.
Proof.
  intros w. exists [EvStmt st]. rewrite Exec_trace. split; [reflexivity|].
  simpl. split; [lia|]. intros d' [H|H]; [discriminate | exact H].
Qed.

Lemma bounded_RandRead b : bounded (RandRead b) 1.
Proof.
  intros w. exists [EvRandRead (length b)]. unfold RandRead.
  destruct (w_rand w (w_rand_calls w)); (split; [reflexivity|]);
    simpl; (split; [lia|]); intros d' [H|H]; [discriminate | exact H | discriminate | exact H].
Qed.

Lemma bounded_bind0 {A B} (m : M A) (k : A -> M B) n :
  bounded m 0 -> (forall a, bounded (k a) n) -> bounded (bind m k) n.
Proof.
  intros Hm Hk w. unfold bind. destruct (Hm w) as (d1 & H1 & L1 & S1).
  destruct (m w) as [a w1]. simpl in H1.
  destruct (Hk a w1) as (d2 & H2 & L2 & S2).
  destruct d1; [|simpl in L1; lia].
  exists d2. rewrite H2, H1, app_nil_r. split; [reflexivity|]. split; assumption.
Qed.

Lemma bounded_bind1 {A B} (m : M A) (k : A -> M B) n :
  bounded m 1 -> (forall a, bounded (k a) n) -> bounded (bind m k) (S n).
Proof.
  intros Hm Hk w. unfold bind. destruct (Hm w) as (d1 & H1 & L1 & S1).
  destruct (m w) as [a w1]. simpl in H1.
  destruct (Hk a w1) as (d2 & H2 & L2 & S2).
  exists (d1 ++ d2). rewrite H2, H1, app_assoc. split; [reflexivity|].
  rewrite length_app. split; [lia|].
  intros d Hin. apply in_app_or in Hin as [Hin|Hin]; [exact (S1 d Hin) | exact (S2 d Hin)].
Qed.

Lemma bounded_QueryRow d st : bounded (QueryRow d st) 1.
Proof.
  unfold QueryRow.
  apply bounded_bind1; [apply bounded_Exec | intros; apply bounded_ret].
Qed.

Create HintDb bounded.
#[local] Hint Resolve bounded_Now bounded_WithTimeout bounded_Exec bounded_RandRead
  bounded_QueryRow : bounded.

Ltac bounded_solve :=
  repeat match goal with
  | |- bounded (ret _) _ => apply bounded_ret
  | |- bounded (bind _ _) _ =>
      first [ apply bounded_bind0; [solve [eauto with bounded] | intros ?]
            | apply bounded_bind1; [solve [eauto with bounded] | intros ?] ]
  | |- bounded (if ?b then _ else _) _ => destruct b
  | |- bounded (match ?x with _ => _ end) _ => destruct x
  | |- bounded (let _ := _ in _) _ => cbv zeta
  end.

Lemma bounded_GetByToken p : bounded (Tokens.GetByToken p) 1.
Proof. unfold Tokens.GetByToken. bounded_solve. Qed.

Lemma bounded_GetUserByToken t : bounded (Tokens.GetUserByToken t) 1.
Proof. unfold Tokens.GetUserByToken. bounded_solve. Qed.

Lemma bounded_DeleteToken p : bounded (Tokens.DeleteToken p) 1.
Proof. unfold Tokens.DeleteToken. bounded_solve. Qed.

#[local] Hint Resolve bounded_GetByToken bounded_GetUserByToken bounded_DeleteToken : bounded.

Lemma bounded_AuthenticationToken h : bounded (Tokens.AuthenticationToken h) 2.
Proof. unfold Tokens.AuthenticationToken, Tokens.AuthenticationToken_with. bounded_solve. Qed.

(** [InsertToken] runs [DeleteToken] once; if that fails its error is
    returned at once, otherwise the INSERT is issued once and its error,
    if any, is returned. *)
Lemma InsertToken_steps t w :
  Tokens.InsertToken t w =
  match fst (Tokens.DeleteToken (Token.Token t) w) with
  | Err e => (Err e, snd (Tokens.DeleteToken (Token.Token t) w))
  | Ok _ =>
      let w1 := snd (Tokens.DeleteToken (Token.Token t) w) in
      let (r, w2) := Exec (w_clock w + dbTimeout)
                       (Tokens.insert_token_stmt t (w_clock w1) (w_clock w1)) w1 in
      (match r with Err e => Err e | Ok _ => Ok tt end, w2)
  end.
Proof.
  unfold Tokens.InsertToken, Tokens.DeleteToken, bind, WithTimeout, Now, ret. cbv beta.
  destruct (Exec (w_clock w + dbTimeout) _ w) as [[r|e] w1]; simpl; [|reflexivity].
  destruct (Exec _ _ w1) as [r2 w2]. reflexivity.
Qed.

Lemma bounded_InsertToken t : bounded (Tokens.InsertToken t) 2.
Proof. unfold Tokens.InsertToken. bounded_solve. Qed.

Lemma bounded_GenerateToken Sum256 uid ttl : bounded (Tokens.GenerateToken Sum256 uid ttl) 1.
Proof. unfold Tokens.GenerateToken. bounded_solve. Qed.

Lemma insert_loop_spec d q w :
  exists k, (1 <= k <= 3)%nat /\
    w_trace (snd (User.insert_loop d q 3 0 None w)) = w_trace w ++ attempts q k /\
    ((exists n, fst (User.insert_loop d q 3 0 None w) = Ok n) \/
     (k = 3%nat /\ exists e, fst (User.insert_loop d q 3 0 None w)
                             = Err (ErrWrap "failed to insert user after 3 attempts: " e))).
Proof.
  cbn [User.insert_loop User.retryCount Nat.sub Nat.ltb Nat.leb].
  unfold QueryRow, bind, ret, Sleep.
  destruct (Exec d q w) as [r1 w1] eqn:E1.
  pose proof (Exec_trace d q w) as T1; rewrite E1 in T1; simpl in T1.
  cbn beta iota.
  match goal with |- context [rbind ?x ?f] => destruct (rbind x f) as [id1|e1] end.
  { exists 1%nat. simpl. rewrite T1. split; [lia|]. split; [reflexivity|]. left; eexists; reflexivity. }
  match goal with |- context [Exec d q ?w'] => destruct (Exec d q w') as [r2 w2] eqn:E2;
    pose proof (Exec_trace d q w') as T2; rewrite E2 in T2; simpl in T2 end.
  cbn beta iota.
  match goal with |- context [rbind ?x ?f] => destruct (rbind x f) as [id2|e2] end.
  { exists 2%nat. simpl. rewrite T2, T1, <- !app_assoc. split; [lia|]. split; [reflexivity|].
    left; eexists; reflexivity. }
  match goal with |- context [Exec d q ?w'] => destruct (Exec d q w') as [r3 w3] eqn:E3;
    pose proof (Exec_trace d q w') as T3; rewrite E3 in T3; simpl in T3 end.
  cbn beta iota.
  match goal with |- context [rbind ?x ?f] => destruct (rbind x f) as [id3|e3] end.
  { exists 3%nat. simpl. rewrite T3, T2, T1, <- !app_assoc. split; [lia|]. split; [reflexivity|].
    left; eexists; reflexivity. }
  exists 3%nat. simpl. rewrite T3, T2, T1, <- !app_assoc. split; [lia|]. split; [reflexivity|].
  right. split; [reflexivity|]. eexists; reflexivity.
Qed.


(** Two driver failures in a row: the third attempt starts four seconds
    after the context was created, past its three-second deadline. *)
Lemma Insert_all_attempts_fail_example :
  let w := mkWorld Samples.store0 (1000 * second)
             [Some (ErrMsg "conn reset"); Some (ErrMsg "conn reset")]
             (fun _ => Ok (repeat x00 16)) 0 [] in
  let q := User.insert_stmt Samples.ada (list_byte_of_string "$2a$12$hash") in
  User.Insert (fun p _ => Ok p) Samples.ada w
  = (Err (ErrWrap "failed to insert user after 3 attempts: "
            (ErrMsg "context deadline exceeded")),
     mkWorld Samples.store0 (1004 * second) [] (fun _ => Ok (repeat x00 16)) 0
       (EvHash 12 :: attempts q 3)).
Proof. reflexivity. Qed.

(** ** Decoding the Base32 encoding *)
Section Base32Decoding.
Import B32Dec Base32.

Lemma mod_split (q a b : Z) :
  0 < a -> 0 < b -> q mod (a * b) = q mod a + a * ((q / a) mod b).
Proof.
  intros Ha Hb.
  pose proof (Z.div_mod q a ltac:(lia)) as E1.
  pose proof (Z.div_mod (q / a) b ltac:(lia)) as E2.
  rewrite Z.div_div in E2 by lia.
  pose proof (Z.div_mod q (a * b) ltac:(nia)) as E3.
  nia.
Qed.

Lemma dec_enc_char (v : Z) : dec_char (enc_char v) = Z.land v 31.
Proof.
  assert (H : forall m, (m < 32)%nat ->
            dec_char (match String.get m alphabet with Some c => c | None => "A"%char end)
            = Z.of_nat m).
  { intros m Hm. do 32 (destruct m as [|m]; [reflexivity|]). lia. }
  unfold enc_char.
  assert (0 <= Z.land v 31 < 32).
  { change 31 with (Z.ones 5). rewrite Z.land_ones by lia.
    apply Z.mod_pos_bound. lia. }
  rewrite H by lia. lia.
Qed.

Lemma dec_emit (k : nat) : forall (i : nat) (v acc : Z),
  (i + k <= 8)%nat ->
  dec_groups acc (emit v i k)
  = acc * 2 ^ (5 * Z.of_nat k) + (v / 2 ^ (40 - 5 * Z.of_nat (i + k))) mod 2 ^ (5 * Z.of_nat k).
Proof.
  induction k as [|k IH]; intros i v acc Hik.
  - simpl. rewrite Z.mod_1_r. lia.
  - cbn [emit dec_groups]. rewrite IH by lia. rewrite dec_enc_char.
    change 31 with (Z.ones 5). rewrite Z.land_ones by lia.
    set (e := 40 - 5 * Z.of_nat (S i + k)).
    replace (40 - 5 * Z.of_nat (i + S k)) with e by (unfold e; lia).
    replace (35 - 5 * Z.of_nat i) with (e + 5 * Z.of_nat k) by (unfold e; lia).
    rewrite Z.shiftr_div_pow2 by (unfold e; lia).
    rewrite Z.pow_add_r by (unfold e; lia).
    rewrite <- Z.div_div by (try apply Z.pow_nonzero; try apply Z.pow_pos_nonneg; lia).
    replace (5 * Z.of_nat (S k)) with (5 * Z.of_nat k + 5) by lia.
    rewrite (Z.pow_add_r 2 (5 * Z.of_nat k) 5) by lia.
    rewrite (mod_split _ (2 ^ (5 * Z.of_nat k)) (2 ^ 5)) by (try apply Z.pow_pos_nonneg; lia).
    ring.
Qed.

Lemma byte_val_bound (b : byte) : 0 <= byte_val b < 256.
Proof. unfold byte_val. pose proof (Byte.to_N_bounded b). lia. Qed.

Lemma byte_val_inj (b b' : byte) : byte_val b = byte_val b' -> b = b'.
Proof.
  unfold byte_val. intros H. apply N2Z.inj in H.
  pose proof (Byte.of_to_N b) as E. rewrite H, Byte.of_to_N in E. congruence.
Qed.

Lemma be_acc (bs : list byte) : forall acc,
  fold_left (fun acc b => acc * 256 + byte_val b) bs acc
  = acc * 256 ^ Z.of_nat (length bs) + be bs.
Proof.
  unfold be. induction bs as [|b bs IH]; intros acc; [simpl; lia|].
  cbn [fold_left length].
  rewrite (IH (acc * 256 + byte_val b)), (IH (0 * 256 + byte_val b)).
  rewrite Nat2Z.inj_succ, Z.pow_succ_r by lia. ring.
Qed.

Lemma be_cons (b : byte) (bs : list byte) :
  be (b :: bs) = byte_val b * 256 ^ Z.of_nat (length bs) + be bs.
Proof. unfold be at 1. cbn [fold_left]. rewrite be_acc. ring. Qed.

Lemma be_bound (bs : list byte) : 0 <= be bs < 256 ^ Z.of_nat (length bs).
Proof.
  induction bs as [|b bs IH]; [unfold be; simpl; lia|].
  rewrite be_cons. pose proof (byte_val_bound b).
  cbn [length]. rewrite Nat2Z.inj_succ, Z.pow_succ_r by lia. nia.
Qed.

Lemma be_inj (bs bs' : list byte) :
  length bs = length bs' -> be bs = be bs' -> bs = bs'.
Proof.
  revert bs'; induction bs as [|b bs IH]; intros [|b' bs'] Hl H; try discriminate; [reflexivity|].
  injection Hl as Hl. rewrite !be_cons in H.
  rewrite <- Hl in H.
  pose proof (be_bound bs). pose proof (be_bound bs'). rewrite <- Hl in *.
  pose proof (byte_val_bound b). pose proof (byte_val_bound b').
  set (M := 256 ^ Z.of_nat (length bs)) in *.
  assert (Hb : byte_val b = byte_val b').
  { assert (E : (byte_val b * M + be bs) / M = (byte_val b' * M + be bs') / M) by (f_equal; lia).
    rewrite !Z.div_add_l in E by lia. rewrite !Z.div_small in E by lia. lia. }
  rewrite (byte_val_inj _ _ Hb). f_equal. apply IH; [exact Hl|]. rewrite Hb in H. lia.
Qed.

Lemma fold_zeros (m : nat) : forall a,
  fold_left (fun acc b => acc * 256 + byte_val b) (repeat x00 m) a = a * 256 ^ Z.of_nat m.
Proof.
  induction m as [|m IH]; intros a; [simpl; lia|].
  cbn [repeat fold_left]. rewrite IH. change (byte_val x00) with 0.
  rewrite Nat2Z.inj_succ, Z.pow_succ_r by lia. ring.
Qed.

Lemma block_val_be (bs : list byte) :
  block_val bs = be bs * 256 ^ Z.of_nat (5 - length bs).
Proof. unfold block_val. rewrite fold_left_app, fold_zeros. reflexivity. Qed.

Lemma nchars_bound (r : nat) :
  (r <= 5)%nat -> 8 * Z.of_nat r <= 5 * Z.of_nat (nchars r) /\ (nchars r <= 8)%nat.
Proof. intros H. do 6 (destruct r as [|r]; [simpl; lia|]). lia. Qed.

Lemma dec_block (bs : list byte) :
  (length bs <= 5)%nat ->
  dec_groups 0 (emit (block_val bs) 0 (nchars (length bs)))
  = be bs * 2 ^ (5 * Z.of_nat (nchars (length bs)) - 8 * Z.of_nat (length bs)).
Proof.
  intros Hr. destruct (nchars_bound _ Hr) as [Hk Hk8].
  pose proof (be_bound bs) as Hb.
  rewrite dec_emit by lia. rewrite block_val_be. simpl (0 + _)%nat.
  set (k := nchars (length bs)) in *. set (r := length bs) in *.
  rewrite Nat2Z.inj_sub by lia.
  replace 256 with (2 ^ 8) in * by reflexivity.
  rewrite <- !Z.pow_mul_r in * by lia.
  replace (8 * (Z.of_nat 5 - Z.of_nat r))
    with ((5 * Z.of_nat k - 8 * Z.of_nat r) + (40 - 5 * Z.of_nat k)) by lia.
  rewrite Z.pow_add_r by lia. rewrite Z.mul_assoc, Z.div_mul
    by (apply Z.pow_nonzero; lia).
  apply Z.mod_small. split.
  - apply Z.mul_nonneg_nonneg; [lia | apply Z.pow_nonneg; lia].
  - replace (5 * Z.of_nat k) with (8 * Z.of_nat r + (5 * Z.of_nat k - 8 * Z.of_nat r)) at 2
      by lia.
    rewrite (Z.pow_add_r 2 (8 * Z.of_nat r)) by lia.
    apply Z.mul_lt_mono_pos_r; [apply Z.pow_pos_nonneg; lia | lia].
Qed.

Lemma block_inj (bs bs' : list byte) :
  length bs = length bs' -> (length bs <= 5)%nat ->
  emit (block_val bs) 0 (nchars (length bs)) = emit (block_val bs') 0 (nchars (length bs')) ->
  bs = bs'.
Proof.
  intros Hl Hr E. apply (f_equal (dec_groups 0)) in E.
  rewrite (dec_block bs Hr), (dec_block bs') in E by lia.
  rewrite <- Hl in E. apply be_inj; [exact Hl|].
  apply Z.mul_cancel_r in E; [exact E|]. apply Z.pow_nonzero; [lia|].
  destruct (nchars_bound _ Hr). lia.
Qed.

Lemma string_app_inj (a1 a2 b1 b2 : string) :
  String.length a1 = String.length a2 -> (a1 ++ b1 = a2 ++ b2)%string ->
  a1 = a2 /\ b1 = b2.
Proof.
  revert a2; induction a1 as [|x a1 IH]; intros [|y a2] Hl H; try discriminate;
    [split; [reflexivity | exact H]|].
  simpl in H, Hl. injection H as -> H. injection Hl as Hl.
  destruct (IH a2 Hl H) as [-> ->]. split; reflexivity.
Qed.

(** [EncodeToString] is injective on inputs of equal length. *)
Lemma EncodeToString_inj_len (src src' : list byte) :
  length src = length src' -> EncodeToString src = EncodeToString src' -> src = src'.
Proof.
  remember (length src) as n eqn:Hn. revert src src' Hn.
  induction n as [n IH] using (well_founded_induction lt_wf).
  intros src src' Hn Hl E.
  destruct src as [|b0 [|b1 [|b2 [|b3 [|b4 rest]]]]];
  destruct src' as [|c0 [|c1 [|c2 [|c3 [|c4 rest']]]]];
  simpl in Hn, Hl; subst n; try discriminate;
  try (apply block_inj; [reflexivity | simpl; lia | exact E]).
  cbn [EncodeToString] in E.
  apply string_app_inj in E as [E1 E2]; [|rewrite !emit_length; reflexivity].
  change 8%nat with (nchars (length [b0; b1; b2; b3; b4])) in E1 at 1.
  change 8%nat with (nchars (length [c0; c1; c2; c3; c4])) in E1.
  apply block_inj in E1; [|reflexivity|simpl; lia].
  injection E1 as -> -> -> -> ->.
  f_equal; f_equal; f_equal; f_equal; f_equal.
  apply (IH (length rest)); [lia | reflexivity | lia | exact E2].
Qed.

Lemma Encode_length (src : list byte) :
  String.length (EncodeToString src) = (8 * (length src / 5) + nchars (length src mod 5))%nat.
Proof.
  remember (length src) as n eqn:Hn. revert src Hn.
  induction n as [n IH] using (well_founded_induction lt_wf).
  intros src Hn.
  destruct src as [|b0 [|b1 [|b2 [|b3 [|b4 rest]]]]]; simpl in Hn; subst n;
    try (cbn [EncodeToString]; rewrite emit_length; reflexivity).
  cbn [EncodeToString]. rewrite string_length_app, emit_length.
  rewrite (IH (length rest)) by (simpl; lia || reflexivity).
  replace (S (S (S (S (S (length rest)))))) with (1 * 5 + length rest)%nat by lia.
  rewrite Nat.div_add_l by lia. rewrite Nat.Div0.add_mod, Nat.Div0.mod_mul, Nat.add_0_l, Nat.Div0.mod_mod.
  lia.
Qed.

Lemma enc_len_inj (n m : nat) :
  (8 * (n / 5) + nchars (n mod 5))%nat = (8 * (m / 5) + nchars (m mod 5))%nat -> n = m.
Proof.
  pose proof (Nat.div_mod n 5 ltac:(lia)) as Dn. pose proof (Nat.div_mod m 5 ltac:(lia)) as Dm.
  pose proof (Nat.mod_upper_bound n 5 ltac:(lia)) as Bn.
  pose proof (Nat.mod_upper_bound m 5 ltac:(lia)) as Bm.
  remember (n mod 5)%nat as r. remember (m mod 5)%nat as r'.
  remember (n / 5)%nat as q. remember (m / 5)%nat as q'.
  intros H.
  destruct r as [|[|[|[|[|r]]]]]; destruct r' as [|[|[|[|[|r']]]]]; simpl in H; lia.
Qed.

(** X1: [base32.StdEncoding.WithPadding(base32.NoPadding).EncodeToString],
    as used by [GenerateToken], is injective: two byte strings with the
    same encoding are equal, whatever their lengths. *)
Theorem EncodeToString_injective (src src' : list byte) :
  EncodeToString src = EncodeToString src' -> src = src'.
Proof.
  intros E. apply EncodeToString_inj_len; [|exact E].
  apply enc_len_inj. rewrite <- !Encode_length, E. reflexivity.
Qed.

End Base32Decoding.

(** ** The database operations *)

(** Row helpers *)

Lemma row_get_absent r c : in_keys c r = false -> row_get r c = VNull.
Proof.
  induction r as [|[c' v] r IH]; simpl; [reflexivity|].
  destruct (String.eqb c c'); [discriminate|]. exact IH.
Qed.

Lemma row_get_set_cols sets r c :
  row_get (set_cols sets r) c
  = if in_keys c r then
      match find (fun s => String.eqb (fst s) c) sets with
      | Some (_, v') => v' | None => row_get r c end
    else VNull.
Proof.
  induction r as [|[c' v] r IH]; simpl; [reflexivity|].
  destruct (String.eqb_spec c c') as [->|Hne]; simpl.
  - destruct (find (fun s => String.eqb (fst s) c') sets) as [[? ?]|]; reflexivity.
  - rewrite IH. destruct (in_keys c r); [|reflexivity].
    destruct (find (fun s => String.eqb (fst s) c) sets) as [[? ?]|]; reflexivity.
Qed.


(** A statement on a connection with no pending failure, before the deadline. *)
Lemma Exec_clean d st w :
  w_faults w = [] -> Z.leb d (w_clock w) = false ->
  Exec d st w =
  (match run_stmt (w_store w) st with Ok (r, _) => Ok r | Err e => Err e end,
   mkWorld (match run_stmt (w_store w) st with Ok (_, s') => s' | Err _ => w_store w end)
     (w_clock w) [] (w_rand w) (w_rand_calls w) (w_trace w ++ [EvStmt st])).
Proof.
  intros Hf Hd. unfold Exec. rewrite Hd, Hf. simpl.
  destruct (run_stmt (w_store w) st) as [[r s']|e]; reflexivity.
Qed.

Lemma run_select_users s cols wh :
  run_stmt s (SSelect "users" cols wh) =
  match check_columns (users s) (cols ++ where_cols wh) with
  | Err e => Err e
  | Ok _ => Ok (RRows (map (project cols)
                 (match wh with Some w' => filter (matches w') (t_rows (users s))
                              | None => t_rows (users s) end)), s)
  end.
Proof.
  destruct s as [u tk]. unfold run_stmt. cbn.
  match goal with |- context [check_columns ?t ?c] => destruct (check_columns t c) end; reflexivity.
Qed.

Lemma run_update_users s sets wh :
  run_stmt s (SUpdate "users" sets wh) =
  match check_columns (users s) (map fst sets ++ [fst wh]) with
  | Err e => Err e
  | Ok _ =>
      Ok (RAffected (Z.of_nat (length (filter (matches wh) (t_rows (users s))))),
          mkStore (mkTable (t_columns (users s))
                     (map (fun r => if matches wh r then set_cols sets r else r)
                        (t_rows (users s)))
                     (t_next_id (users s)))
                  (tokens s))
  end.
Proof.
  destruct s as [u tk]. unfold run_stmt. cbn.
  match goal with |- context [check_columns ?t ?c] => destruct (check_columns t c) end; reflexivity.
Qed.

Lemma run_delete_users s wh :
  run_stmt s (SDelete "users" wh) =
  match check_columns (users s) [fst wh] with
  | Err e => Err e
  | Ok _ =>
      Ok (RAffected (Z.of_nat (length (filter (matches wh) (t_rows (users s))))),
          mkStore (mkTable (t_columns (users s))
                     (filter (fun r => negb (matches wh r)) (t_rows (users s)))
                     (t_next_id (users s)))
                  (tokens s))
  end.
Proof.
  destruct s as [u tk]. unfold run_stmt. cbn.
  match goal with |- context [has_column ?t ?c] => destruct (has_column t c) end; reflexivity.
Qed.

Lemma check_columns_spec t cs :
  check_columns t cs = Ok tt <-> forall c, In c cs -> has_column t c = true.
Proof.
  induction cs as [|c cs IH]; simpl.
  - split; [contradiction | reflexivity].
  - destruct (has_column t c) eqn:H.
    + rewrite IH. split; [intros Hc x [<-|Hx]; auto | intros Hc; auto].
    + split; [discriminate | intros Hc; rewrite (Hc c (or_introl eq_refl)) in H; discriminate].
Qed.

Lemma check_columns_ok t cs : check_columns t cs = Ok tt \/ exists e, check_columns t cs = Err e.
Proof.
  induction cs as [|c cs IH]; simpl; [left; reflexivity|].
  destruct (has_column t c); [exact IH | right; eexists; reflexivity].
Qed.

Lemma GetByID_ok id w u0 :
  fst (User.GetByID id w) = Ok u0 ->
  check_columns (users (w_store w)) (User.user_columns ++ ["id"]) = Ok tt /\
  exists r0 rest,
    filter (matches ("id", VInt id)) (t_rows (users (w_store w))) = r0 :: rest /\
    User.scan_user (project User.user_columns r0) = Ok u0.
Proof.
  unfold User.GetByID, QueryRow, bind, WithTimeout, ret, Exec.
  rewrite fresh_deadline. intros H.
  destruct (w_faults w) as [|[e|] fs]; cbn -[User.scan_user project check_columns run_stmt] in H;
    [| destruct (Is e ErrNoRows); discriminate |];
  rewrite run_select_users in H;
  (destruct (check_columns _ _) as [[]|e] eqn:Hc; cbn -[User.scan_user project check_columns run_stmt] in H;
    [| destruct (Is e ErrNoRows); discriminate]);
  (split; [reflexivity|]);
  (destruct (filter _ _) as [|r0 rest]; cbn -[User.scan_user project check_columns run_stmt] in H;
    [discriminate |]);
  (destruct (User.scan_user _) as [u|e] eqn:Hs; cbn -[User.scan_user project check_columns run_stmt] in H;
    [ injection H as <-; eauto | destruct (Is e ErrNoRows); discriminate ]).
Qed.

Lemma scan_user_inv a b c d e f g u :
  User.scan_user [a; b; c; d; e; f; g] = Ok u ->
  scan_int a = Ok (User.ID u) /\ scan_string b = Ok (User.Email u) /\
  scan_string c = Ok (User.FirstName u) /\ scan_string d = Ok (User.LastName u) /\
  scan_string e = Ok (User.Password u) /\ scan_time f = Ok (User.CreatedAt u) /\
  scan_time g = Ok (User.UpdatedAt u) /\ User.Token u = Token.zero.
Proof.
  cbn [User.scan_user rbind].
  destruct (scan_int a); [|discriminate]; destruct (scan_string b); [|discriminate];
  destruct (scan_string c); [|discriminate]; destruct (scan_string d); [|discriminate];
  destruct (scan_string e); [|discriminate]; destruct (scan_time f); [|discriminate];
  destruct (scan_time g); [|discriminate].
  intros H; injection H as <-. simpl. repeat split.
Qed.

Lemma scan_user_intro a b c d e f g u :
  scan_int a = Ok (User.ID u) -> scan_string b = Ok (User.Email u) ->
  scan_string c = Ok (User.FirstName u) -> scan_string d = Ok (User.LastName u) ->
  scan_string e = Ok (User.Password u) -> scan_time f = Ok (User.CreatedAt u) ->
  scan_time g = Ok (User.UpdatedAt u) -> User.Token u = Token.zero ->
  User.scan_user [a; b; c; d; e; f; g] = Ok u.
Proof.
  cbn [User.scan_user]. intros -> -> -> -> -> -> -> Ht. simpl. rewrite <- Ht.
  destruct u; reflexivity.
Qed.

Lemma project_user_columns r :
  project User.user_columns r =
  [row_get r "id"; row_get r "email"; row_get r "first_name"; row_get r "last_name";
   row_get r "password"; row_get r "created_at"; row_get r "updated_at"].
Proof. reflexivity. Qed.

Lemma row_get_present r c : row_get r c <> VNull -> in_keys c r = true.
Proof.
  intros H. destruct (in_keys c r) eqn:E; [reflexivity|].
  exfalso. apply H. apply row_get_absent, E.
Qed.

Lemma scan_not_null_string v s : scan_string v = Ok s -> v <> VNull.
Proof. intros H ->. discriminate. Qed.
Lemma scan_not_null_int v z : scan_int v = Ok z -> v <> VNull.
Proof. intros H ->. discriminate. Qed.

Lemma row_get_set_cols_other sets r c :
  find (fun s => String.eqb (fst s) c) sets = None ->
  row_get (set_cols sets r) c = row_get r c.
Proof.
  intros H. rewrite row_get_set_cols, H.
  destruct (in_keys c r) eqn:E; [reflexivity|]. symmetry. apply row_get_absent, E.
Qed.

Lemma filter_map_update (wh : string * value) (f : row -> row) rows :
  (forall r, matches wh (f r) = matches wh r) ->
  filter (matches wh) (map (fun r => if matches wh r then f r else r) rows)
  = map f (filter (matches wh) rows).
Proof.
  intros Hf. induction rows as [|r rows IH]; [reflexivity|].
  simpl. destruct (matches wh r) eqn:E; simpl.
  - rewrite Hf, E, IH. reflexivity.
  - rewrite E. exact IH.
Qed.

Lemma GetByID_eval id w r0 rest :
  w_faults w = [] ->
  check_columns (users (w_store w)) (User.user_columns ++ ["id"]) = Ok tt ->
  filter (matches ("id", VInt id)) (t_rows (users (w_store w))) = r0 :: rest ->
  fst (User.GetByID id w) =
  match User.scan_user (project User.user_columns r0) with
  | Ok u => Ok u
  | Err e => if Is e ErrNoRows then Err (ErrMsg "user not found") else Err e
  end.
Proof.
  intros Hf Hc Hfil.
  unfold User.GetByID, QueryRow, bind, WithTimeout, ret.
  rewrite Exec_clean by (exact Hf || apply fresh_deadline).
  rewrite run_select_users. simpl where_cols. rewrite Hc, Hfil. reflexivity.
Qed.

(** The world after an UPDATE of the users table on a clean connection. *)
Lemma Exec_update_users_clean d sets wh w :
  w_faults w = [] -> Z.leb d (w_clock w) = false ->
  check_columns (users (w_store w)) (map fst sets ++ [fst wh]) = Ok tt ->
  snd (Exec d (SUpdate "users" sets wh) w) =
  mkWorld (mkStore (mkTable (t_columns (users (w_store w)))
                      (map (fun r => if matches wh r then set_cols sets r else r)
                         (t_rows (users (w_store w))))
                      (t_next_id (users (w_store w))))
                   (tokens (w_store w)))
    (w_clock w) [] (w_rand w) (w_rand_calls w)
    (w_trace w ++ [EvStmt (SUpdate "users" sets wh)]).
Proof.
  intros Hf Hd Hc. rewrite Exec_clean by assumption. rewrite run_update_users, Hc.
  reflexivity.
Qed.

Lemma GetByID_after_update id sets w r0 rest :
  w_faults w = [] ->
  check_columns (users (w_store w)) (User.user_columns ++ ["id"]) = Ok tt ->
  check_columns (users (w_store w)) (map fst sets ++ ["id"]) = Ok tt ->
  find (fun s => String.eqb (fst s) "id") sets = None ->
  filter (matches ("id", VInt id)) (t_rows (users (w_store w))) = r0 :: rest ->
  fst (User.GetByID id
         (snd (Exec (w_clock w + dbTimeout) (SUpdate "users" sets ("id", VInt id)) w)))
  = match User.scan_user (project User.user_columns (set_cols sets r0)) with
    | Ok u => Ok u
    | Err e => if Is e ErrNoRows then Err (ErrMsg "user not found") else Err e
    end.
Proof.
  intros Hf Hc1 Hc2 Hid Hfil.
  rewrite Exec_update_users_clean by (assumption || apply fresh_deadline).
  apply (GetByID_eval _ _ _ (map (set_cols sets) rest)); [reflexivity| exact Hc1 |].
  simpl. rewrite filter_map_update, Hfil; [reflexivity|].
  intros r. unfold matches. simpl. rewrite row_get_set_cols_other by exact Hid. reflexivity.
Qed.

Lemma user_columns_has t c :
  check_columns t (User.user_columns ++ ["id"]) = Ok tt ->
  In c (User.user_columns ++ ["id"]) -> has_column t c = true.
Proof. intros H. apply check_columns_spec. exact H. Qed.

Ltac other_cols :=
  repeat match goal with
  | |- context [row_get (set_cols ?s ?r) ?c] =>
      rewrite (row_get_set_cols_other s r c) by reflexivity
  end.

Ltac cols_from Hc :=
  apply check_columns_spec; intros c Hin; apply (user_columns_has _ _ Hc);
  simpl in Hin |- *; intuition.

(** X2: on a connection with no pending failure, if [GetByID(u.ID)] finds
    a user, then after [u.ResetPassword(p)] the same lookup returns that
    user with the password column replaced by the string [p] as given
    (not hashed), every other field unchanged. *)
Theorem ResetPassword_GetByID u p w u0 :
  w_faults w = [] ->
  fst (User.GetByID (User.ID u) w) = Ok u0 ->
  fst (User.GetByID (User.ID u) (snd (User.ResetPassword u p w)))
  = Ok (User.mk (User.ID u0) (User.Email u0) (User.FirstName u0) (User.LastName u0)
          p (User.CreatedAt u0) (User.UpdatedAt u0) (User.Token u0)).
Proof.
  intros Hf H. destruct (GetByID_ok _ _ _ H) as [Hc (r0 & rest & Hfil & Hs)].
  replace (snd (User.ResetPassword u p w))
    with (snd (Exec (w_clock w + dbTimeout)
                 (SUpdate "users" [("password", VText p)] ("id", VInt (User.ID u))) w))
    by (unfold User.ResetPassword, bind, WithTimeout, ret;
        destruct (Exec _ _ w); reflexivity).
  rewrite (GetByID_after_update _ _ _ r0 rest Hf Hc); [| cols_from Hc | reflexivity | exact Hfil].
  rewrite project_user_columns in Hs |- *.
  apply scan_user_inv in Hs as (H1 & H2 & H3 & H4 & H5 & H6 & H7 & H8).
  other_cols.
  rewrite row_get_set_cols, (row_get_present _ _ (scan_not_null_string _ _ H5)).
  simpl find.
  rewrite (scan_user_intro _ _ _ _ _ _ _
             (User.mk (User.ID u0) (User.Email u0) (User.FirstName u0) (User.LastName u0)
                p (User.CreatedAt u0) (User.UpdatedAt u0) (User.Token u0)));
    simpl; auto.
Qed.

(** X3: on a connection with no pending failure, if [GetByID(user.ID)]
    finds a user, then after [Update(user)] the lookup returns it with
    email, first name, last name and updated_at taken from [user]; the
    id, password and created_at stay those of the stored row. *)
Theorem Update_GetByID user w u0 :
  w_faults w = [] ->
  fst (User.GetByID (User.ID user) w) = Ok u0 ->
  fst (User.GetByID (User.ID user) (snd (User.Update user w)))
  = Ok (User.mk (User.ID u0) (User.Email user) (User.FirstName user) (User.LastName user)
          (User.Password u0) (User.CreatedAt u0) (User.UpdatedAt user) (User.Token u0)).
Proof.
  intros Hf H. destruct (GetByID_ok _ _ _ H) as [Hc (r0 & rest & Hfil & Hs)].
  match goal with |- context [User.Update user w] =>
    replace (snd (User.Update user w))
      with (snd (Exec (w_clock w + dbTimeout)
                   (SUpdate "users"
                      [("email", VText (User.Email user));
                       ("first_name", VText (User.FirstName user));
                       ("last_name", VText (User.LastName user));
                       ("updated_at", VInt (User.UpdatedAt user))]
                      ("id", VInt (User.ID user))) w))
      by (unfold User.Update, bind, WithTimeout, ret; destruct (Exec _ _ w); reflexivity)
  end.
  rewrite (GetByID_after_update _ _ _ r0 rest Hf Hc); [| cols_from Hc | reflexivity | exact Hfil].
  rewrite project_user_columns in Hs |- *.
  apply scan_user_inv in Hs as (H1 & H2 & H3 & H4 & H5 & H6 & H7 & H8).
  other_cols.
  rewrite !row_get_set_cols.
  rewrite (row_get_present _ "email" (scan_not_null_string _ _ H2)),
          (row_get_present _ "first_name" (scan_not_null_string _ _ H3)),
          (row_get_present _ "last_name" (scan_not_null_string _ _ H4)),
          (row_get_present _ "updated_at" (scan_not_null_int _ _ H7)).
  simpl find.
  rewrite (scan_user_intro _ _ _ _ _ _ _
             (User.mk (User.ID u0) (User.Email user) (User.FirstName user) (User.LastName user)
                (User.Password u0) (User.CreatedAt u0) (User.UpdatedAt user) (User.Token u0)));
    simpl; auto.
Qed.

Lemma filter_cons_In {A} (f : A -> bool) l x rest :
  filter f l = x :: rest -> In x l /\ f x = true.
Proof.
  intros H. assert (Hin : In x (filter f l)) by (rewrite H; left; reflexivity).
  apply filter_In in Hin. exact Hin.
Qed.

(** A row returned by a WHERE lookup is a stored row that matches. *)
Lemma QueryRow_select_ok d tbl cols wh w vals :
  fst (QueryRow d (SSelect tbl cols (Some wh)) w) = Ok vals ->
  exists t r, get_table (w_store w) tbl = Some t /\ In r (t_rows t) /\
              matches wh r = true /\ vals = project cols r.
Proof.
  unfold QueryRow, bind, ret, Exec. intros H.
  destruct (Z.leb d (w_clock w)); [discriminate|].
  destruct (w_faults w) as [|[e|] fs]; cbn -[run_stmt project] in H; try discriminate;
  unfold run_stmt in H; cbn [stmt_table] in H;
  (destruct (get_table (w_store w) tbl) as [t|] eqn:G; [|discriminate]);
  cbn -[project check_columns] in H;
  (destruct (check_columns t _); [|discriminate]); cbn -[project] in H;
  (destruct (filter (matches wh) (t_rows t)) as [|r rest] eqn:F; [discriminate|]);
  cbn in H; injection H as <-;
  destruct (filter_cons_In _ _ _ _ F); eauto 6.
Qed.

Lemma sql_eq_int v z : sql_eq v (VInt z) = true -> v = VInt z.
Proof. destruct v; simpl; try discriminate. intros H. apply Z.eqb_eq in H. congruence. Qed.

Lemma sql_eq_text v s : sql_eq v (VText s) = true -> v = VText s.
Proof. destruct v; simpl; try discriminate. intros H. apply String.eqb_eq in H. congruence. Qed.

Lemma scan_token_token vs tk :
  Tokens.scan_token vs = Ok tk ->
  exists a b c d e f g h, vs = [a; b; c; d; e; f; g; h] /\ scan_string d = Ok (Token.Token tk).
Proof.
  destruct vs as [|a [|b [|c [|d [|e [|f [|g [|h [|]]]]]]]]]; try discriminate.
  cbn [Tokens.scan_token rbind].
  destruct (scan_int a); [|discriminate]; destruct (scan_int b); [|discriminate];
  destruct (scan_string c); [|discriminate]; destruct (scan_string d) eqn:Ed; [|discriminate];
  destruct (scan_bytes e); [|discriminate]; destruct (scan_time f); [|discriminate];
  destruct (scan_time g); [|discriminate]; destruct (scan_time h); [|discriminate].
  intros H; injection H as <-. do 8 eexists. split; [reflexivity | exact Ed].
Qed.

(** The shape of a lookup method: a row from one query, scanned, with the
    not-found error replaced by a message. *)
Lemma lookup_ok {A} (scan : list value -> result A) (msg : error) d st w a :
  fst (let (row, w1) := QueryRow d st w in
       (match rbind row scan with
        | Ok x => Ok x
        | Err e => if Is e ErrNoRows then Err msg else Err e
        end, w1)) = Ok a ->
  exists vals, fst (QueryRow d st w) = Ok vals /\ scan vals = Ok a.
Proof.
  destruct (QueryRow d st w) as [[vals|e] w1]; simpl.
  - destruct (scan vals) as [x|e] eqn:E; [intros H; injection H as ->; eauto|].
    destruct (Is e ErrNoRows); discriminate.
  - destruct (Is e ErrNoRows); discriminate.
Qed.

(** X4: a successful lookup returns a record that matches its key:
    [GetByID(id)] a user whose ID is [id], [GetByEmail(email)] one whose
    Email is [email], [GetUserByToken(t)] one whose ID is [t.UserID], and
    [GetByToken(p)] a token whose plain text is [p]. *)
Theorem lookups_match :
  (forall id w u, fst (User.GetByID id w) = Ok u -> User.ID u = id) /\
  (forall email w u, fst (User.GetByEmail email w) = Ok u -> User.Email u = email) /\
  (forall t w u, fst (Tokens.GetUserByToken t w) = Ok u -> User.ID u = Token.UserID t) /\
  (forall p w tk, fst (Tokens.GetByToken p w) = Ok tk -> Token.Token tk = p).
Proof.
  repeat split.
  - intros id w u H. unfold User.GetByID, bind, WithTimeout, ret in H.
    apply lookup_ok in H as (vals & Hq & Hs).
    apply QueryRow_select_ok in Hq as (t & r & _ & _ & Hm & ->).
    rewrite project_user_columns in Hs. apply scan_user_inv in Hs as (H1 & _).
    unfold matches in Hm. simpl in Hm. rewrite (sql_eq_int _ _ Hm) in H1.
    simpl in H1. congruence.
  - intros email w u H. unfold User.GetByEmail, bind, WithTimeout, ret in H.
    apply lookup_ok in H as (vals & Hq & Hs).
    apply QueryRow_select_ok in Hq as (t & r & _ & _ & Hm & ->).
    rewrite project_user_columns in Hs. apply scan_user_inv in Hs as (_ & H2 & _).
    unfold matches in Hm. simpl in Hm. rewrite (sql_eq_text _ _ Hm) in H2.
    simpl in H2. congruence.
  - intros tk w u H. unfold Tokens.GetUserByToken, bind, WithTimeout, ret in H.
    apply lookup_ok in H as (vals & Hq & Hs).
    apply QueryRow_select_ok in Hq as (t & r & _ & _ & Hm & ->).
    rewrite project_user_columns in Hs. apply scan_user_inv in Hs as (H1 & _).
    unfold matches in Hm. simpl in Hm. rewrite (sql_eq_int _ _ Hm) in H1.
    simpl in H1. congruence.
  - intros p w tk H. unfold Tokens.GetByToken, bind, WithTimeout, ret in H.
    apply lookup_ok in H as (vals & Hq & Hs).
    apply QueryRow_select_ok in Hq as (t & r & _ & _ & Hm & ->).
    apply scan_token_token in Hs as (a & b & c & d & e & f & g & h & Hv & Hd).
    unfold project, Tokens.token_columns in Hv. simpl in Hv.
    injection Hv as _ _ _ Hp _ _ _ _.
    unfold matches in Hm. simpl in Hm. rewrite (sql_eq_text _ _ Hm) in Hp.
    subst d. simpl in Hd. congruence.
Qed.

Lemma Exec_run d st w :
  no_pending_fault w -> Z.leb d (w_clock w) = false ->
  fst (Exec d st w) = match run_stmt (w_store w) st with Ok (r, _) => Ok r | Err e => Err e end.
Proof.
  unfold no_pending_fault, Exec. intros Hf Hd. rewrite Hd.
  destruct (w_faults w) as [|[e|] fs]; [| contradiction |];
  destruct (run_stmt (w_store w) st) as [[r s']|e]; reflexivity.
Qed.

Lemma filter_none {A} (f : A -> bool) l :
  (forall x, In x l -> f x = false) -> filter f l = [].
Proof.
  induction l as [|x l IH]; intros H; [reflexivity|]. simpl.
  rewrite (H x (or_introl eq_refl)). apply IH. intros y Hy. apply H. right; exact Hy.
Qed.

Lemma check_user_columns t c :
  check_columns t User.user_columns = Ok tt -> In c User.user_columns ->
  check_columns t (User.user_columns ++ [c]) = Ok tt.
Proof.
  rewrite !check_columns_spec. intros H Hc x Hx.
  apply in_app_or in Hx as [Hx|[<-|[]]]; auto.
Qed.

Lemma select_none_users (op : M (result User.t)) col v msg w :
  (forall w, fst (op w) =
     fst (let (row, w1) := QueryRow (w_clock w + dbTimeout)
                             (SSelect "users" User.user_columns (Some (col, v))) w in
          (match rbind row User.scan_user with
           | Ok x => Ok x
           | Err e => if Is e ErrNoRows then Err msg else Err e
           end, w1))) ->
  no_pending_fault w ->
  check_columns (users (w_store w)) (User.user_columns ++ [col]) = Ok tt ->
  filter (matches (col, v)) (t_rows (users (w_store w))) = [] ->
  fst (op w) = Err msg.
Proof.
  intros Hop Hf Hc Hn. rewrite Hop. unfold QueryRow, bind, ret.
  pose proof (Exec_run (w_clock w + dbTimeout)
                (SSelect "users" User.user_columns (Some (col, v))) w Hf
                (fresh_deadline _)) as E.
  destruct (Exec _ _ w) as [r w1]. simpl in E. subst r.
  rewrite run_select_users. simpl where_cols. rewrite Hc, Hn. reflexivity.
Qed.

(** X5: when no stored user row has the requested id (resp. email), no
    failure is pending and the users table has the selected columns,
    [GetByID] fails with "user not found" and [GetByEmail] with
    "no user found with email <email>". *)
Theorem lookups_missing id email w :
  no_pending_fault w ->
  check_columns (users (w_store w)) User.user_columns = Ok tt ->
  (forall r, In r (t_rows (users (w_store w))) -> matches ("id", VInt id) r = false) ->
  (forall r, In r (t_rows (users (w_store w))) -> matches ("email", VText email) r = false) ->
  fst (User.GetByID id w) = Err (ErrMsg "user not found") /\
  fst (User.GetByEmail email w) = Err (ErrMsg ("no user found with email " ++ email)).
Proof.
  intros Hf Hc Hid Hem. split.
  - apply (select_none_users _ "id" (VInt id)).
    + intros w'. reflexivity.
    + exact Hf.
    + apply check_user_columns; [exact Hc | simpl; tauto].
    + apply filter_none. exact Hid.
  - apply (select_none_users _ "email" (VText email)).
    + intros w'. reflexivity.
    + exact Hf.
    + apply check_user_columns; [exact Hc | simpl; tauto].
    + apply filter_none. exact Hem.
Qed.

(** X6: on a connection with no pending failure, [Delete(id)] succeeds
    and a following [GetByID(id)] fails with "user not found". *)
Theorem Delete_then_GetByID id w :
  w_faults w = [] ->
  check_columns (users (w_store w)) User.user_columns = Ok tt ->
  fst (User.Delete id w) = Ok tt /\
  fst (User.GetByID id (snd (User.Delete id w))) = Err (ErrMsg "user not found").
Proof.
  intros Hf Hc.
  assert (Hid : has_column (users (w_store w)) "id" = true).
  { rewrite check_columns_spec in Hc. apply Hc. simpl; tauto. }
  unfold User.Delete at 1 2, bind, WithTimeout, ret.
  rewrite Exec_clean by (exact Hf || apply fresh_deadline).
  rewrite run_delete_users. simpl check_columns. rewrite Hid. split; [reflexivity|].
  apply (select_none_users _ "id" (VInt id)); simpl.
  - intros w'. reflexivity.
  - exact I.
  - apply check_user_columns; [exact Hc | simpl; tauto].
  - apply filter_none. intros r Hr. apply filter_In in Hr as [_ Hr].
    destruct (matches ("id", VInt id) r); [discriminate | reflexivity].
Qed.

(** X7: [VaildateToken(token)] runs the query of [GetUserWithToken(token)]
    and reports its outcome: [(true, nil)] when that finds a user, and
    [(false, err)] with the very error [GetUserWithToken] returns
    otherwise; both leave the same state. *)
Theorem VaildateToken_GetUserWithToken token w :
  Tokens.VaildateToken token w =
  (match fst (Tokens.GetUserWithToken token w) with
   | Ok _ => (true, None)
   | Err e => (false, Some e)
   end, snd (Tokens.GetUserWithToken token w)).
Proof.
  unfold Tokens.VaildateToken, Tokens.GetUserWithToken, bind, WithTimeout, ret.
  destruct (QueryRow _ _ w) as [row w1]. simpl.
  destruct (rbind row User.scan_user) as [u|e]; [reflexivity|].
  destruct (Is e ErrNoRows); reflexivity.
Qed.


Lemma keeps_ret {A} (a : A) : keeps_store (ret a).
Proof. intros w. reflexivity. Qed.
Lemma keeps_Now : keeps_store Now.
Proof. intros w. reflexivity. Qed.
Lemma keeps_WithTimeout d : keeps_store (WithTimeout d).
Proof. intros w. reflexivity. Qed.
Lemma keeps_RandRead b : keeps_store (RandRead b).
Proof. intros w. unfold RandRead. destruct (w_rand w (w_rand_calls w)); reflexivity. Qed.
Lemma keeps_select d tb cols wh : keeps_store (Exec d (SSelect tb cols wh)).
Proof. intros w. apply Exec_select_store. Qed.
Lemma keeps_bind {A B} (m : M A) (k : A -> M B) :
  keeps_store m -> (forall a, keeps_store (k a)) -> keeps_store (bind m k).
Proof.
  intros Hm Hk w. unfold bind. specialize (Hm w). destruct (m w) as [a w1].
  simpl in Hm. rewrite Hk. exact Hm.
Qed.
Lemma keeps_QueryRow d tb cols wh : keeps_store (QueryRow d (SSelect tb cols wh)).
Proof. unfold QueryRow. apply keeps_bind; [apply keeps_select | intros; apply keeps_ret]. Qed.

Create HintDb keeps.
#[local] Hint Resolve keeps_Now keeps_WithTimeout keeps_RandRead keeps_select
  keeps_QueryRow : keeps.

Ltac keeps_solve :=
  repeat match goal with
  | |- keeps_store (ret _) => apply keeps_ret
  | |- keeps_store (bind _ _) => apply keeps_bind; [solve [eauto with keeps] | intros ?]
  | |- keeps_store (if ?b then _ else _) => destruct b
  | |- keeps_store (match ?x with _ => _ end) => destruct x
  | |- keeps_store (let _ := _ in _) => cbv zeta
  end.

Lemma keeps_GetByToken p : keeps_store (Tokens.GetByToken p).
Proof. unfold Tokens.GetByToken. keeps_solve. Qed.
Lemma keeps_GetUserByToken t : keeps_store (Tokens.GetUserByToken t).
Proof. unfold Tokens.GetUserByToken. keeps_solve. Qed.
#[local] Hint Resolve keeps_GetByToken keeps_GetUserByToken : keeps.

(** X8: the read operations [GetAll], [GetByEmail], [GetByID],
    [GetByToken], [GetUserByToken], [GetUserWithToken], [VaildateToken],
    [AuthenticationToken] and [GenerateToken] never modify the database. *)
Theorem reads_keep_store :
  keeps_store User.GetAll /\
  (forall email, keeps_store (User.GetByEmail email)) /\
  (forall id, keeps_store (User.GetByID id)) /\
  (forall p, keeps_store (Tokens.GetByToken p)) /\
  (forall t, keeps_store (Tokens.GetUserByToken t)) /\
  (forall token, keeps_store (Tokens.GetUserWithToken token)) /\
  (forall token, keeps_store (Tokens.VaildateToken token)) /\
  (forall h, keeps_store (Tokens.AuthenticationToken h)) /\
  (forall Sum256 userID ttl, keeps_store (Tokens.GenerateToken Sum256 userID ttl)).
Proof.
  repeat split; intros;
  unfold User.GetAll, User.GetByEmail, User.GetByID, Tokens.GetUserWithToken,
    Tokens.VaildateToken, Tokens.AuthenticationToken, Tokens.AuthenticationToken_with,
    Tokens.GenerateToken;
  first [apply keeps_GetByToken | apply keeps_GetUserByToken | keeps_solve].
Qed.

Lemma auth_ok_inv h w u :
  fst (Tokens.AuthenticationToken h w) = Ok u ->
  exists tk tm, h = ("Bearer " ++ tk)%string /\ String.length tk = 26%nat /\
                fst (Tokens.GetByToken tk w) = Ok tm.
Proof.
  unfold Tokens.AuthenticationToken, Tokens.AuthenticationToken_with.
  destruct (String.eqb h ""); [discriminate|].
  destruct (Split h " ") as [|a [|b [|c rest]]] eqn:S; try discriminate.
  destruct (String.eqb a "Bearer") eqn:Ea; [|discriminate].
  apply String.eqb_eq in Ea; subst a. simpl negb.
  destruct (Nat.eqb (String.length b) 26) eqn:Hl; [|discriminate].
  apply Nat.eqb_eq in Hl. simpl negb.
  unfold bind; cbn [negb]; cbv beta. destruct (Tokens.GetByToken b w) as [[tm|e] w1] eqn:G; [|discriminate].
  intros _. exists b, tm. apply Split_two in S as [-> _].
  split; [reflexivity|]. split; [exact Hl|]. rewrite G. reflexivity.
Qed.

Lemma GetByToken_ok_row p w tm :
  fst (Tokens.GetByToken p w) = Ok tm ->
  exists r, In r (t_rows (tokens (w_store w))) /\ row_get r "plainText" = VText p.
Proof.
  unfold Tokens.GetByToken, bind, WithTimeout, ret. intros H.
  apply lookup_ok in H as (vals & Hq & _).
  apply QueryRow_select_ok in Hq as (t & r & G & Hin & Hm & _).
  unfold get_table in G. simpl in G. injection G as <-.
  exists r. split; [exact Hin|]. unfold matches in Hm. simpl in Hm.
  exact (sql_eq_text _ _ Hm).
Qed.

(** X9: [AuthenticationToken] succeeds only on a header
    "Bearer <tk>" with a 26-character [tk] for which a stored tokens row
    has [plainText = tk]. *)
Theorem AuthenticationToken_plainText h w u :
  fst (Tokens.AuthenticationToken h w) = Ok u ->
  exists tk r, h = ("Bearer " ++ tk)%string /\ String.length tk = 26%nat /\
               In r (t_rows (tokens (w_store w))) /\ row_get r "plainText" = VText tk.
Proof.
  intros H. apply auth_ok_inv in H as (tk & tm & -> & Hl & G).
  apply GetByToken_ok_row in G as (r & Hin & Hr). eauto 6.
Qed.

Lemma row_get_map (g : string -> value) cols c :
  row_get (map (fun c0 => (c0, g c0)) cols) c
  = if existsb (String.eqb c) cols then g c else VNull.
Proof.
  induction cols as [|c0 cols IH]; [reflexivity|]. simpl.
  destruct (String.eqb_spec c c0) as [->|]; [reflexivity | exact IH].
Qed.

Lemma row_get_new_row t cols args c :
  row_get (new_row t cols args) c
  = if has_column t c then (if String.eqb c "id" then VInt (t_next_id t) else assoc cols args c)
    else VNull.
Proof. unfold new_row, has_column. rewrite row_get_map. reflexivity. Qed.

Lemma Exec_store_cases d st w :
  w_store (snd (Exec d st w)) = w_store w \/
  exists r, run_stmt (w_store w) st = Ok (r, w_store (snd (Exec d st w))).
Proof.
  unfold Exec. destruct (Z.leb d (w_clock w)); [left; reflexivity|].
  destruct (w_faults w) as [|[e|] fs]; [| left; reflexivity |];
  destruct (run_stmt (w_store w) st) as [[r s']|e] eqn:E; simpl; eauto.
Qed.

Lemma run_delete_tokens_rows s wh r s' :
  run_stmt s (SDelete "tokens" wh) = Ok (r, s') ->
  forall row, In row (t_rows (tokens s')) -> In row (t_rows (tokens s)).
Proof.
  destruct s as [u tk]. unfold run_stmt. cbn.
  destruct (has_column tk (fst wh)); [|discriminate].
  intros H; injection H as _ <-. simpl. intros row Hr. apply filter_In in Hr. tauto.
Qed.

Lemma run_insert_token_rows s t c1 c2 r s' :
  run_stmt s (Tokens.insert_token_stmt t c1 c2) = Ok (r, s') ->
  forall row, In row (t_rows (tokens s')) ->
  In row (t_rows (tokens s)) \/ row_get row "plainText" = VNull.
Proof.
  destruct s as [u tk]. unfold run_stmt, Tokens.insert_token_stmt. cbn -[check_columns new_row].
  destruct (check_columns tk _); [|discriminate]. cbn -[new_row].
  intros H; injection H as _ <-. simpl. intros row Hr.
  apply in_app_or in Hr as [Hr|[<-|[]]]; [left; exact Hr | right].
  rewrite row_get_new_row. destruct (has_column tk "plainText"); reflexivity.
Qed.

Lemma InsertToken_rows t w :
  forall row, In row (t_rows (tokens (w_store (snd (Tokens.InsertToken t w))))) ->
  In row (t_rows (tokens (w_store w))) \/ row_get row "plainText" = VNull.
Proof.
  unfold Tokens.InsertToken, Tokens.DeleteToken, bind, WithTimeout, ret, Now.
  set (d := w_clock w + dbTimeout).
  pose proof (Exec_store_cases d (SDelete "tokens" ("plainText", VText (Token.Token t))) w) as C1.
  destruct (Exec d _ w) as [r1 w1] eqn:E1. simpl in C1.
  assert (H1 : forall row, In row (t_rows (tokens (w_store w1))) ->
                           In row (t_rows (tokens (w_store w)))).
  { destruct C1 as [-> | [r R]]; [tauto | exact (run_delete_tokens_rows _ _ _ _ R)]. }
  destruct (match r1 with Err e => Err e | Ok _ => Ok tt end) as [[]|e]; simpl;
    [| intros row Hr; left; exact (H1 row Hr)].
  set (st := Tokens.insert_token_stmt t (w_clock w1) (w_clock w1)).
  pose proof (Exec_store_cases d st w1) as C2.
  destruct (Exec d st w1) as [r2 w2]. simpl in C2 |- *.
  intros row Hr. destruct C2 as [E | [r R]].
  - rewrite E in Hr. left; exact (H1 row Hr).
  - destruct (run_insert_token_rows _ _ _ _ _ _ R row Hr) as [Hr'|Hn]; [left; exact (H1 _ Hr') | right; exact Hn].
Qed.

(** X10: [InsertToken] never makes a token usable: any header that
    authenticates after [InsertToken(t)] names a [plainText] value that a
    tokens row already had before the call (the inserted row leaves the
    [plainText] column unset, and the preceding delete only removes rows). *)
Theorem InsertToken_authenticates_nothing t w h u :
  fst (Tokens.AuthenticationToken h (snd (Tokens.InsertToken t w))) = Ok u ->
  exists tk r, h = ("Bearer " ++ tk)%string /\
               In r (t_rows (tokens (w_store w))) /\ row_get r "plainText" = VText tk.
Proof.
  intros H. apply auth_ok_inv in H as (tk & tm & -> & _ & G).
  apply GetByToken_ok_row in G as (r & Hin & Hr).
  destruct (InsertToken_rows t w r Hin) as [Hin' | Hn]; [eauto 6 | congruence].
Qed.

Lemma Exec_ok d st w r :
  fst (Exec d st w) = Ok r -> run_stmt (w_store w) st = Ok (r, w_store (snd (Exec d st w))).
Proof.
  unfold Exec. destruct (Z.leb d (w_clock w)); [discriminate|].
  destruct (w_faults w) as [|[e|] fs]; [| discriminate |];
  destruct (run_stmt (w_store w) st) as [[r' s']|e] eqn:E; simpl; try discriminate;
  intros H; injection H as ->; reflexivity.
Qed.

Lemma Exec_err_store d st w e :
  fst (Exec d st w) = Err e -> w_store (snd (Exec d st w)) = w_store w.
Proof.
  unfold Exec. destruct (Z.leb d (w_clock w)); [reflexivity|].
  destruct (w_faults w) as [|[e'|] fs]; [| reflexivity |];
  destruct (run_stmt (w_store w) st) as [[r' s']|e'] eqn:E; simpl; try discriminate; reflexivity.
Qed.

Lemma run_insert_users s cols args rt r s' :
  run_stmt s (SInsert "users" cols args rt) = Ok (r, s') ->
  check_columns (users s) (cols ++ rt) = Ok tt /\
  length cols = length args /\
  t_rows (users s') = t_rows (users s) ++ [new_row (users s) cols args] /\
  r = match rt with [] => RAffected 1 | _ => RRows [project rt (new_row (users s) cols args)] end.
Proof.
  destruct s as [us tk]. unfold run_stmt. cbn -[check_columns new_row project].
  destruct (check_columns us (cols ++ rt)) as [[]|e]; [|discriminate].
  cbn -[new_row project].
  destruct (Nat.eqb_spec (length cols) (length args)) as [Hl|]; [|discriminate].
  intros H; injection H as <- <-. simpl. auto.
Qed.

(** X11: the [Insert] of the third copy appends exactly one users row, and
    that row stores [user.Password] unhashed in the password column. *)
Theorem UserV3_Insert_plaintext u w :
  fst (UserV3.Insert u w) = Ok tt ->
  exists r, t_rows (users (w_store (snd (UserV3.Insert u w))))
            = t_rows (users (w_store w)) ++ [r] /\
            row_get r "password" = VText (User.Password u) /\
            row_get r "email" = VText (User.Email u).
Proof.
  unfold UserV3.Insert, bind, WithTimeout, ret. cbv beta.
  match goal with |- context [Exec ?d ?st w] =>
    destruct (Exec d st w) as [r1 w1] eqn:E; pose proof (Exec_ok d st w) as X; rewrite E in X
  end.
  destruct r1 as [res|e]; simpl; [|discriminate]. intros _.
  specialize (X res eq_refl). simpl in X.
  apply run_insert_users in X as (Hc & _ & Hrows & _).
  exists (new_row (users (w_store w))
            ["email"; "first_name"; "last_name"; "password"; "created_at"; "updated_at"]
            [VText (User.Email u); VText (User.FirstName u); VText (User.LastName u);
             VText (User.Password u); VInt (User.CreatedAt u); VInt (User.UpdatedAt u)]).
  split; [exact Hrows|].
  rewrite !row_get_new_row.
  rewrite (proj1 (check_columns_spec _ _) Hc "password") by (simpl; tauto).
  rewrite (proj1 (check_columns_spec _ _) Hc "email") by (simpl; tauto).
  split; reflexivity.
Qed.

Lemma insert_loop_ok d q f k e w n :
  (forall s r s', run_stmt s q = Ok (r, s') -> exists id, r = RRows [[VInt id]]) ->
  fst (User.insert_loop d q f k e w) = Ok n ->
  n = 0 /\ exists r, run_stmt (w_store w) q = Ok (r, w_store (snd (User.insert_loop d q f k e w))).
Proof.
  intros HP. revert k e w. induction f as [|f IH]; intros k e w; [discriminate|].
  cbn [User.insert_loop]. unfold QueryRow, bind, ret. cbv beta.
  pose proof (Exec_ok d q w) as X. pose proof (Exec_err_store d q w) as Y.
  destruct (Exec d q w) as [r1 w1]. simpl in X, Y.
  destruct r1 as [res|e1].
  - specialize (X res eq_refl). destruct (HP _ _ _ X) as [id ->].
    simpl. intros H; injection H as <-. split; [reflexivity|]. eauto.
  - specialize (Y e1 eq_refl). simpl.
    destruct (Nat.ltb k 2); unfold Sleep; simpl; intros H;
    destruct (IH _ _ _ H) as [Hn [r R]]; split; try exact Hn; exists r; rewrite <- R; simpl;
    rewrite Y; reflexivity.
Qed.

Lemma insert_stmt_returns_id u h s r s' :
  run_stmt s (User.insert_stmt u h) = Ok (r, s') -> exists id, r = RRows [[VInt id]].
Proof.
  unfold User.insert_stmt. intros X. apply run_insert_users in X as (Hc & _ & _ & ->).
  exists (t_next_id (users s)). unfold project. simpl. rewrite row_get_new_row.
  rewrite (proj1 (check_columns_spec _ _) Hc "id") by (simpl; tauto). reflexivity.
Qed.

(** X12: when [Insert(user)] succeeds it returns 0, the users table has
    exactly one more row, and that row has the next generated id, the
    user's email and, as password, the bcrypt output for the user's
    password at cost 12. *)
Theorem Insert_stores_hash G u w n :
  fst (User.Insert G u w) = Ok n ->
  n = 0 /\
  exists hashed r,
    G (list_byte_of_string (User.Password u)) 12 = Ok hashed /\
    t_rows (users (w_store (snd (User.Insert G u w)))) = t_rows (users (w_store w)) ++ [r] /\
    row_get r "id" = VInt (t_next_id (users (w_store w))) /\
    row_get r "email" = VText (User.Email u) /\
    row_get r "password" = VBytes hashed.
Proof.
  unfold User.Insert, User.Bcrypt, bind, WithTimeout, ret. cbv beta.
  destruct (G (list_byte_of_string (User.Password u)) 12) as [hashed|e]; [|discriminate].
  intros H. apply insert_loop_ok in H as [Hn [r R]]; [|apply insert_stmt_returns_id].
  split; [exact Hn|]. exists hashed.
  unfold User.insert_stmt in R. apply run_insert_users in R as (Hc & _ & Hrows & _).
  change (w_store (log_event (EvHash 12) w)) with (w_store w) in Hc, Hrows.
  simpl in Hrows. eexists. split; [reflexivity|]. split; [exact Hrows|].
  rewrite !row_get_new_row.
  rewrite (proj1 (check_columns_spec _ _) Hc "id") by (simpl; tauto).
  rewrite (proj1 (check_columns_spec _ _) Hc "email") by (simpl; tauto).
  rewrite (proj1 (check_columns_spec _ _) Hc "password") by (simpl; tauto).
  split; [reflexivity|]. split; reflexivity.
Qed.

Lemma scan_all_Forall2 rs us :
  User.scan_all rs = Ok us -> Forall2 (fun u r => User.scan_user r = Ok u) us rs.
Proof.
  revert us. induction rs as [|r rs IH]; intros us H; simpl in H.
  - injection H as <-. constructor.
  - destruct (User.scan_user r) as [u|e] eqn:Hu; [|discriminate]. simpl in H.
    destruct (User.scan_all rs) as [us'|e]; [|discriminate]. injection H as <-.
    constructor; [exact Hu | apply IH; reflexivity].
Qed.

Lemma Forall2_map_r {A B C} (P : A -> B -> Prop) (f : C -> B) l l' :
  Forall2 P l (map f l') -> Forall2 (fun a c => P a (f c)) l l'.
Proof.
  revert l. induction l' as [|x l' IH]; intros l H; inversion H; subst; constructor; auto.
Qed.

Lemma GetAll_rows w us :
  fst (User.GetAll w) = Ok us ->
  Forall2 (fun u r => User.scan_user (project User.user_columns r) = Ok u)
          us (t_rows (users (w_store w))).
Proof.
  unfold User.GetAll, bind, WithTimeout, ret. cbv beta.
  pose proof (Exec_ok (w_clock w + dbTimeout) (SSelect "users" User.user_columns None) w) as X.
  destruct (Exec _ _ w) as [r1 w1]. simpl in X.
  destruct r1 as [res|e]; cbn -[User.scan_all User.scan_user project]; [|discriminate].
  specialize (X res eq_refl). rewrite run_select_users in X.
  destruct (check_columns _ _); [|discriminate]. injection X as <- _.
  intros H. apply (Forall2_map_r (fun u r => User.scan_user r = Ok u) (project User.user_columns)).
  apply scan_all_Forall2, H.
Qed.

Lemma scan_user_id r u :
  User.scan_user (project User.user_columns r) = Ok u -> row_get r "id" = VInt (User.ID u).
Proof.
  rewrite project_user_columns. intros H. apply scan_user_inv in H as (Hid & _).
  unfold scan_int in Hid. destruct (row_get r "id"); try discriminate.
  injection Hid as ->. reflexivity.
Qed.


Lemma run_insert_users_ok s cols args rt :
  check_columns (users s) (cols ++ rt) = Ok tt -> length cols = length args ->
  run_stmt s (SInsert "users" cols args rt) =
  Ok (match rt with [] => RAffected 1 | _ => RRows [project rt (new_row (users s) cols args)] end,
      mkStore (mkTable (t_columns (users s)) (t_rows (users s) ++ [new_row (users s) cols args])
                 (t_next_id (users s) + 1)) (tokens s)).
Proof.
  intros Hc Hl. destruct s as [us tk]. unfold run_stmt. cbn -[check_columns new_row project].
  simpl users in Hc. rewrite Hc. cbn -[new_row project].
  rewrite (proj2 (Nat.eqb_eq _ _) Hl). reflexivity.
Qed.

Lemma check_columns_cols t t' cs :
  t_columns t = t_columns t' -> check_columns t cs = check_columns t' cs.
Proof.
  intros H. induction cs as [|c cs IH]; [reflexivity|]. simpl.
  unfold has_column. rewrite H. destruct (existsb _ _); [exact IH | reflexivity].
Qed.

Lemma sql_eq_text_refl s : sql_eq (VText s) (VText s) = true.
Proof. apply String.eqb_refl. Qed.

Lemma Insert_clean G u w hashed :
  G (list_byte_of_string (User.Password u)) 12 = Ok hashed ->
  w_faults w = [] ->
  check_columns (users (w_store w)) User.user_columns = Ok tt ->
  fst (User.Insert G u w) = Ok 0 /\
  w_faults (snd (User.Insert G u w)) = [] /\
  w_clock (snd (User.Insert G u w)) = w_clock w /\
  w_store (snd (User.Insert G u w)) =
    mkStore (mkTable (t_columns (users (w_store w)))
               (t_rows (users (w_store w)) ++
                [new_row (users (w_store w))
                   ["email"; "first_name"; "last_name"; "password"; "created_at"; "updated_at"]
                   [VText (User.Email u); VText (User.FirstName u); VText (User.LastName u);
                    VBytes hashed; VInt (User.CreatedAt u); VInt (User.UpdatedAt u)]])
               (t_next_id (users (w_store w)) + 1))
      (tokens (w_store w)).
Proof.
  intros HG Hf Hc.
  assert (Hc' : check_columns (users (w_store w))
                  (["email"; "first_name"; "last_name"; "password"; "created_at"; "updated_at"]
                   ++ ["id"]) = Ok tt).
  { rewrite check_columns_spec in Hc |- *. intros c Hin. apply Hc. simpl in Hin |- *. tauto. }
  assert (Hid : has_column (users (w_store w)) "id" = true)
    by (apply (proj1 (check_columns_spec _ _) Hc); simpl; tauto).
  unfold User.Insert, User.Bcrypt, bind, WithTimeout, ret. cbv beta. rewrite HG.
  cbn [User.insert_loop User.retryCount]. unfold QueryRow, bind, ret.
  rewrite Exec_clean by (simpl; first [exact Hf | apply fresh_deadline]).
  unfold User.insert_stmt. cbn [w_store log_event].
  rewrite (run_insert_users_ok _ _ _ _ Hc') by reflexivity.
  unfold project. cbn [map]. rewrite row_get_new_row, Hid. simpl.
  repeat split.
Qed.

(** X14: round trip: if bcrypt succeeds, no failure is pending, the users
    table has the selected columns and no stored row has the user's email,
    then after [Insert(user)] [GetByEmail(user.Email)] returns the new user:
    the next generated id, the given names and timestamps, and the bcrypt
    output as password. *)
Theorem Insert_GetByEmail G u w hashed :
  G (list_byte_of_string (User.Password u)) 12 = Ok hashed ->
  w_faults w = [] ->
  check_columns (users (w_store w)) User.user_columns = Ok tt ->
  (forall r, In r (t_rows (users (w_store w))) -> row_get r "email" <> VText (User.Email u)) ->
  fst (User.GetByEmail (User.Email u) (snd (User.Insert G u w))) =
  Ok (User.mk (t_next_id (users (w_store w))) (User.Email u) (User.FirstName u)
        (User.LastName u) (string_of_list_byte hashed) (User.CreatedAt u)
        (User.UpdatedAt u) Token.zero).
Proof.
  intros HG Hf Hc Hn.
  destruct (Insert_clean G u w hashed HG Hf Hc) as (_ & Hf2 & Hk2 & Hs2).
  set (w2 := snd (User.Insert G u w)) in *.
  set (nr := new_row (users (w_store w)) _ _) in Hs2.
  assert (Hcol : forall c, In c User.user_columns -> has_column (users (w_store w)) c = true)
    by (apply check_columns_spec; exact Hc).
  unfold User.GetByEmail, QueryRow, bind, WithTimeout, ret.
  rewrite Exec_clean by first [exact Hf2 | rewrite Hk2; apply fresh_deadline].
  rewrite run_select_users, Hs2. cbn [users t_rows where_cols].
  rewrite (check_columns_cols _ (users (w_store w))) by reflexivity.
  rewrite (check_user_columns _ "email" Hc) by (simpl; tauto).
  rewrite filter_app, filter_none.
  2:{ intros r Hr. unfold matches. simpl.
      destruct (row_get r "email") eqn:E; try reflexivity.
      apply String.eqb_neq. intros Heq. apply (Hn r Hr). rewrite E, Heq. reflexivity. }
  assert (Hm : matches ("email", VText (User.Email u)) nr = true).
  { unfold matches, nr. simpl fst. simpl snd. rewrite row_get_new_row.
    rewrite (Hcol "email") by (simpl; tauto). apply sql_eq_text_refl. }
  simpl app. cbn [filter]. rewrite Hm. cbn [map].
  rewrite project_user_columns. unfold nr. rewrite !row_get_new_row.
  rewrite !Hcol by (simpl; tauto). reflexivity.
Qed.

(** ** Instances of the database properties *)

Lemma EncodeToString_injective_witness :
  Base32.EncodeToString [x01; x02] = Base32.EncodeToString [x01; x02] /\ [x01; x02] = [x01; x02].
Proof.
  split; [reflexivity|]. apply (EncodeToString_injective [x01; x02] [x01; x02]). reflexivity.
Defined.

Lemma ResetPassword_GetByID_witness :
  w_faults Samples.w1 = [] /\ fst (User.GetByID 1 Samples.w1) = Ok Samples.ada /\
  fst (User.GetByID 1 (snd (User.ResetPassword Samples.ada "n3w" Samples.w1)))
  = Ok (User.mk 1 "ada@example.com" "Ada" "Lovelace" "n3w" 0 0 Token.zero).
Proof.
  split; [reflexivity|]. split; [reflexivity|].
  apply (ResetPassword_GetByID Samples.ada "n3w" Samples.w1 Samples.ada); reflexivity.
Defined.

Lemma Update_GetByID_witness :
  let u := User.mk 1 "ada@lovelace.org" "Augusta" "King" "" 0 7 Token.zero in
  w_faults Samples.w1 = [] /\ fst (User.GetByID 1 Samples.w1) = Ok Samples.ada /\
  fst (User.GetByID 1 (snd (User.Update u Samples.w1)))
  = Ok (User.mk 1 "ada@lovelace.org" "Augusta" "King" "$2a$12$hash" 0 7 Token.zero).
Proof.
  intros u. split; [reflexivity|]. split; [reflexivity|].
  apply (Update_GetByID u Samples.w1 Samples.ada); reflexivity.
Defined.

Lemma lookups_missing_witness :
  no_pending_fault Samples.w1 /\
  fst (User.GetByID 2 Samples.w1) = Err (ErrMsg "user not found") /\
  fst (User.GetByEmail "bob@example.com" Samples.w1)
  = Err (ErrMsg ("no user found with email " ++ "bob@example.com")).
Proof.
  split; [exact I|].
  apply (lookups_missing 2 "bob@example.com" Samples.w1);
    [exact I | reflexivity | intros r [<-|[]]; reflexivity | intros r [<-|[]]; reflexivity].
Defined.

Lemma Delete_then_GetByID_witness :
  w_faults Samples.w1 = [] /\
  fst (User.Delete 1 Samples.w1) = Ok tt /\
  fst (User.GetByID 1 (snd (User.Delete 1 Samples.w1))) = Err (ErrMsg "user not found").
Proof.
  split; [reflexivity|]. apply (Delete_then_GetByID 1 Samples.w1); reflexivity.
Defined.

Lemma AuthenticationToken_plainText_witness :
  fst (Tokens.AuthenticationToken ("Bearer " ++ "AAAAAAAAAAAAAAAAAAAAAAAAAA") Samples.w1)
  = Ok Samples.ada /\
  exists tk r, ("Bearer " ++ "AAAAAAAAAAAAAAAAAAAAAAAAAA")%string = ("Bearer " ++ tk)%string /\
    String.length tk = 26%nat /\
    In r (t_rows (tokens (w_store Samples.w1))) /\ row_get r "plainText" = VText tk.
Proof.
  split; [reflexivity|].
  apply (AuthenticationToken_plainText _ Samples.w1 Samples.ada). reflexivity.
Defined.

Lemma InsertToken_authenticates_nothing_witness :
  fst (Tokens.AuthenticationToken ("Bearer " ++ "AAAAAAAAAAAAAAAAAAAAAAAAAA")
         (snd (Tokens.InsertToken Samples.token_b Samples.w1))) = Ok Samples.ada /\
  exists tk r, ("Bearer " ++ "AAAAAAAAAAAAAAAAAAAAAAAAAA")%string = ("Bearer " ++ tk)%string /\
    In r (t_rows (tokens (w_store Samples.w1))) /\ row_get r "plainText" = VText tk.
Proof.
  split; [reflexivity|].
  apply (InsertToken_authenticates_nothing Samples.token_b Samples.w1 _ Samples.ada).
  reflexivity.
Defined.

Lemma UserV3_Insert_plaintext_witness :
  fst (UserV3.Insert Samples.bob Samples.w1) = Ok tt /\
  exists r, t_rows (users (w_store (snd (UserV3.Insert Samples.bob Samples.w1))))
            = t_rows (users (w_store Samples.w1)) ++ [r] /\
            row_get r "password" = VText "secret" /\
            row_get r "email" = VText "bob@example.com".
Proof.
  split; [reflexivity|]. apply (UserV3_Insert_plaintext Samples.bob Samples.w1). reflexivity.
Defined.

Lemma Insert_stores_hash_witness :
  fst (User.Insert Samples.gen_id Samples.bob Samples.w1) = Ok 0 /\
  0 = 0 /\
  exists hashed r,
    Samples.gen_id (list_byte_of_string "secret") 12 = Ok hashed /\
    t_rows (users (w_store (snd (User.Insert Samples.gen_id Samples.bob Samples.w1))))
    = t_rows (users (w_store Samples.w1)) ++ [r] /\
    row_get r "id" = VInt 2 /\
    row_get r "email" = VText "bob@example.com" /\
    row_get r "password" = VBytes hashed.
Proof.
  split; [reflexivity|].
  apply (Insert_stores_hash Samples.gen_id Samples.bob Samples.w1 0). reflexivity.
Defined.


Lemma Insert_GetByEmail_witness :
  Samples.gen_id (list_byte_of_string "secret") 12 = Ok (list_byte_of_string "secret") /\
  fst (User.GetByEmail "bob@example.com"
         (snd (User.Insert Samples.gen_id Samples.bob Samples.w1)))
  = Ok (User.mk 2 "bob@example.com" "Bob" "Smith"
          (string_of_list_byte (list_byte_of_string "secret")) 5 6 Token.zero).
Proof.
  split; [reflexivity|].
  apply (Insert_GetByEmail Samples.gen_id Samples.bob Samples.w1);
    [reflexivity | reflexivity | reflexivity | intros r [<-|[]]; discriminate].
Defined.
